(** * charmrepo: the charm store and git repository backends

    A shallow embedding of [charmstore.go] (type [CharmStore]) and of the
    git backend (type [GitRepo]) of package [charmrepo].  The Go code is
    effectful: it reads a package-level variable ([CacheDir]), touches the
    file system, talks to the charm store and clones git remotes.  The
    embedding threads an explicit [World] through a small state-and-error
    monad; everything that lives outside the package (hashing, quoting,
    archive parsing, ...) is collected in the class [Externals]. *)

From Stdlib Require Import ZArith Strings.Byte Strings.Ascii.
From stdpp Require Import base gmap strings list pretty.

Open Scope Z_scope.

(** ** Data *)

(** [charm.URL]; [charm.Reference] has the same fields, and
    [curl.Reference()] converts between them field by field. *)
Record URL := mkURL {
  Schema : string;
  User : string;
  Name : string;
  Revision : Z;
  Series : string;
}.

#[global] Instance URL_eq_dec : EqDecision URL.
Proof. solve_decision. Defined.

(** [curl.WithRevision(rev)]: a copy with the revision replaced. *)
Definition WithRevision (u : URL) (rev : Z) : URL :=
  {| Schema := Schema u; User := User u; Name := Name u;
     Revision := rev; Series := Series u |}.

(** [curl.Reference()]. *)
Definition Reference (u : URL) : URL := u.

(** *** Errors, after package errgo

    A message is kept as its format string and the (already rendered)
    arguments, so [errgo.Newf("size mismatch for %q", path)] is
    [Newf "size mismatch for %q" [path]]. *)
Inductive error :=
  | ExtErr (not_found : bool) (text : string)
      (* an error made outside this package; [not_found] tells whether its
         cause is [params.ErrNotFound] *)
  | Newf (fmt : string) (args : list string)
  | Notef (err : error) (fmt : string) (args : list string)
  | NoteMaskAny (err : error) (msg : string) (args : list string)
  | WithCausefNotFound (fmt : string) (args : list string)
      (* errgo.WithCausef(nil, params.ErrNotFound, fmt, args...) *)
  | Mask (err : error)          (* errgo.Mask(err): the cause is hidden *)
  | MaskAny (err : error)       (* errgo.Mask(err, errgo.Any) *)
  | NotFoundError (url : string).

(** [errgo.Cause(err) == params.ErrNotFound]. *)
Fixpoint cause_is_ErrNotFound (err : error) : bool :=
  match err with
  | ExtErr nf _ => nf
  | Newf _ _ => false
  | Notef _ _ _ => false
  | NoteMaskAny e _ _ => cause_is_ErrNotFound e
  | WithCausefNotFound _ _ => true
  | Mask _ => false
  | MaskAny e => cause_is_ErrNotFound e
  | NotFoundError _ => false
  end.

(** Modelled from the spec: [CharmNotFound] is declared in a file of the
    package that is not part of the sources at hand; a reference absent
    from the response is reported as NotFound for that slot. *)
Definition CharmNotFound (url : string) : error := NotFoundError url.

(** Modelled from the spec: [CharmRevision], the RevisionInfo record
    {revision, hash, optional NotFound error}; its declaration is in a file
    of the package that is not part of the sources at hand. *)
Record CharmRevision := mkCharmRevision {
  cr_Revision : Z;
  cr_Sha256 : string;
  cr_Err : option error;
}.

(** What a function call ends in: a value, a returned error, or a panic. *)
Inductive outcome (A : Type) :=
  | Ok (a : A)
  | Err (e : error)
  | Panic (msg : string).
Arguments Ok {A} a.
Arguments Err {A} e.
Arguments Panic {A} msg.

(** *** The charm store client *)

(** The body of an archive response: the bytes it delivers and whether the
    transfer then breaks instead of ending. *)
Record Body := mkBody {
  body_data : list byte;
  body_broken : bool;
}.

(** One entry of the [/meta/any] response. *)
Record MetaAny := mkMetaAny {
  IdRevision_Revision : Z;
  Hash256_Sum : string;
}.

(** [csclient.Client], seen from this package: what the store answers. *)
Record Client := mkClient {
  (* GetArchive(id) = (r, id, expectHash, expectSize, err) *)
  answer_GetArchive : URL -> outcome (Body * URL * string * Z);
  (* Meta(ref, &result), giving result.Id.Id *)
  answer_Meta : URL -> outcome URL;
  (* Get(path, &results) *)
  answer_Get : string -> outcome (gmap string MetaAny);
}.

Record CharmStore := mkCharmStore { client : Client }.

(** *** git *)

(** [git.CloneOptions], the fields this package could set. *)
Record CloneOptions := mkCloneOptions {
  opt_URL : string;
  opt_ReferenceName : string;   (* the zero value means HEAD *)
  opt_RecurseSubmodules : Z;
}.

Definition DefaultSubmoduleRecursionDepth : Z := 10.

Record GitRepo := mkGitRepo {
  remoteURI : string;
  reference : string;
}.

(** *** The world *)

(** What the process did to the outside, in order. *)
Inductive Event :=
  | EvGetArchive (id : URL)
  | EvBodyRead
  | EvBodyClose
  | EvFileClose (name : string)
  | EvMeta (id : URL)
  | EvGet (path : string)
  | EvClone (dir : string) (o : CloneOptions).

Record World := mkWorld {
  CacheDir : string;                          (* var CacheDir string *)
  dirs : gset string;                         (* directories that exist *)
  files : gmap string (list byte);            (* regular files, by path *)
  worktrees : gmap string (gmap string (list byte));
                                              (* cloned trees, by directory *)
  remotes : gmap string (gmap string (gmap string (list byte)));
                                              (* git remotes: URI, then
                                                 reference, then tree *)
  rand : list nat;                            (* random numbers to come *)
  trace : list Event;
}.

Definition set_dirs (f : gset string -> gset string) (w : World) : World :=
  {| CacheDir := CacheDir w; dirs := f (dirs w); files := files w;
     worktrees := worktrees w; remotes := remotes w; rand := rand w;
     trace := trace w |}.
Definition set_files (f : gmap string (list byte) -> gmap string (list byte))
    (w : World) : World :=
  {| CacheDir := CacheDir w; dirs := dirs w; files := f (files w);
     worktrees := worktrees w; remotes := remotes w; rand := rand w;
     trace := trace w |}.
Definition set_worktrees
    (f : gmap string (gmap string (list byte)) ->
         gmap string (gmap string (list byte)))
    (w : World) : World :=
  {| CacheDir := CacheDir w; dirs := dirs w; files := files w;
     worktrees := f (worktrees w); remotes := remotes w; rand := rand w;
     trace := trace w |}.
Definition set_rand (r : list nat) (w : World) : World :=
  {| CacheDir := CacheDir w; dirs := dirs w; files := files w;
     worktrees := worktrees w; remotes := remotes w; rand := r;
     trace := trace w |}.
Definition log (ev : Event) (w : World) : World :=
  {| CacheDir := CacheDir w; dirs := dirs w; files := files w;
     worktrees := worktrees w; remotes := remotes w; rand := rand w;
     trace := trace w ++ [ev] |}.

(** ** The monad *)

Definition M (A : Type) : Type := World -> outcome A * World.

Definition ret {A} (a : A) : M A := fun w => (Ok a, w).
Definition fail {A} (e : error) : M A := fun w => (Err e, w).
Definition panic {A} (msg : string) : M A := fun w => (Panic msg, w).
Definition bind {A B} (m : M A) (k : A -> M B) : M B :=
  fun w =>
    match m w with
    | (Ok a, w') => k a w'
    | (Err e, w') => (Err e, w')
    | (Panic msg, w') => (Panic msg, w')
    end.
Definition gets {A} (f : World -> A) : M A := fun w => (Ok (f w), w).
Definition modify (f : World -> World) : M unit := fun w => (Ok tt, f w).
Definition lift {A} (o : outcome A) : M A := fun w => (o, w).

Declare Scope go_scope.
Delimit Scope go_scope with go.
Notation "x <- m ;; k" := (bind m (fun x => k))
  (at level 100, m at next level, right associativity) : go_scope.
Notation "m ;; k" := (bind m (fun _ => k))
  (at level 100, right associativity) : go_scope.
Open Scope go_scope.

(** [x, err := m; if err != nil { return ..., f(err) }]. *)
Definition wrap {A} (f : error -> error) (m : M A) : M A :=
  fun w =>
    match m w with
    | (Err e, w') => (Err (f e), w')
    | r => r
    end.

(** [err := m], for the caller that only goes on to test [err == nil]. *)
Definition catch (m : M unit) : M (option error) :=
  fun w =>
    match m w with
    | (Ok _, w') => (Ok None, w')
    | (Err e, w') => (Ok (Some e), w')
    | (Panic msg, w') => (Panic msg, w')
    end.

(** [defer cleanup()], then the rest of the function: the cleanup runs when
    the function is left, however it is left. *)
Definition defer {A} (cleanup : World -> World) (body : M A) : M A :=
  fun w => let '(o, w') := body w in (o, cleanup w').

(** ** What lives outside the package *)

(** [strconv.Itoa(int(1e9 + r%1e9))[1:]] prints the low decimal digits of a
    random number; [digits k n] is the [k] low digits of [n]. *)
Definition digit_char (n : nat) : ascii := ascii_of_nat (48 + n mod 10).

Fixpoint digits (k n : nat) : string :=
  match k with
  | O => ""
  | S k' => digits k' (n / 10) +:+ String (digit_char n) ""
  end.

(** [nextSuffix] of io/ioutil. *)
Definition nextSuffix (r : nat) : string := digits 9 r.

(** [filepath.Join] on two clean parts. *)
Definition filepath_Join (dir name : string) : string :=
  dir +:+ "/" +:+ name.

(** [os.TempDir()]. *)
Definition os_TempDir : string := "/tmp".

Definition exists_at (w : World) (p : string) : bool :=
  bool_decide (p ∈ dirs w) || bool_decide (is_Some (files w !! p)).

(** [os.MkdirAll(path, 0755)]: an error for the empty path, nothing to do
    for a directory, an error for a regular file, a new directory
    otherwise. *)
Definition os_MkdirAll (path : string) : M unit :=
  fun w =>
    if decide (path = "") then
      (Err (ExtErr false "mkdir: no such file or directory"), w)
    else if bool_decide (path ∈ dirs w) then (Ok tt, w)
    else match files w !! path with
         | Some _ => (Err (ExtErr false "mkdir: not a directory"), w)
         | None => (Ok tt, set_dirs (fun d => {[path]} ∪ d) w)
         end.

(** The name search of [ioutil.TempFile] and [ioutil.TempDir]: the first
    random name that is not taken; the numbers tried are used up. *)
Fixpoint fresh_name (taken : string -> bool) (dir pfx : string)
    (rs : list nat) : option (string * list nat) :=
  match rs with
  | [] => None
  | r :: rs' =>
      let name := filepath_Join dir (pfx +:+ nextSuffix r) in
      if taken name then fresh_name taken dir pfx rs' else Some (name, rs')
  end.

(** [ioutil.TempFile(dir, prefix)]: a new empty file, open for writing;
    the result is its name ([f.Name()]). *)
Definition ioutil_TempFile (dir pfx : string) : M string :=
  fun w =>
    if bool_decide (dir ∈ dirs w) then
      match fresh_name (exists_at w) dir pfx (rand w) with
      | Some (name, rs) =>
          (Ok name, set_files (fun m => <[name := []]> m) (set_rand rs w))
      | None => (Err (ExtErr false "too many temporary files"), set_rand [] w)
      end
    else (Err (ExtErr false "open: no such directory"), w).

(** [ioutil.TempDir("", prefix)]: a new empty directory under
    [os.TempDir()]. *)
Definition ioutil_TempDir (pfx : string) : M string :=
  fun w =>
    match fresh_name (exists_at w) os_TempDir pfx (rand w) with
    | Some (name, rs) =>
        (Ok name, set_dirs (fun d => {[name]} ∪ d) (set_rand rs w))
    | None => (Err (ExtErr false "too many temporary directories"), set_rand [] w)
    end.

(** [os.Open(path)] on a regular file: what can be read from the handle. *)
Definition os_Open (path : string) : M (list byte) :=
  fun w =>
    match files w !! path with
    | Some content => (Ok content, w)
    | None => (Err (ExtErr false "open: no such file"), w)
    end.

(** [f.Close()] on a file. *)
Definition file_Close (name : string) : World -> World :=
  log (EvFileClose name).

(** [r.Close()] on the archive body. *)
Definition body_Close : World -> World := log EvBodyClose.

(** [utils.ReplaceFile(source, destination)]: an atomic rename. *)
Definition utils_ReplaceFile (source destination : string) : M unit :=
  fun w =>
    match files w !! source with
    | Some content =>
        if bool_decide (destination ∈ dirs w)
        then (Err (ExtErr false "rename: is a directory"), w)
        else (Ok tt,
              set_files (fun m => <[destination := content]> (delete source m)) w)
    | None => (Err (ExtErr false "rename: no such file"), w)
    end.

(** [git.PlainClone(dir, false, &o)]: the tree of the remote at the
    reference asked for (HEAD when none is) is checked out in [dir]. *)
Definition clone_reference (o : CloneOptions) : string :=
  if decide (opt_ReferenceName o = "") then "HEAD" else opt_ReferenceName o.

Definition git_PlainClone (dir : string) (o : CloneOptions) : M unit :=
  fun w =>
    let w' := log (EvClone dir o) w in
    match remotes w !! opt_URL o with
    | Some refs =>
        match refs !! clone_reference o with
        | Some tree =>
            (Ok tt, set_worktrees (fun m => <[dir := tree]> m) w')
        | None => (Err (ExtErr false "reference not found"), w')
        end
    | None => (Err (ExtErr false "repository not found"), w')
    end.

(** [strings.Split(s, sep)] for a separator of one byte. *)
Fixpoint strings_Split (s : string) (sep : ascii) : list string :=
  match s with
  | EmptyString => [EmptyString]
  | String c rest =>
      if decide (c = sep) then EmptyString :: strings_Split rest sep
      else match strings_Split rest sep with
           | t :: ts => String c t :: ts
           | [] => [String c EmptyString]
           end
  end.

(** The functions of other packages whose results this package only passes
    on or compares. *)
Class Externals := {
  Charm : Type;
  Bundle : Type;
  Charm_Meta_Series : Charm -> list string;     (* ch.Meta().Series *)
  Charm_Revision : Charm -> Z;                  (* ch.Revision() *)
  URL_String : URL -> string;                   (* curl.String() *)
  Quote : string -> string;                     (* charm.Quote *)
  sha384_hex : list byte -> string;
    (* fmt.Sprintf("%x", h.Sum(nil)) for h = sha512.New384() fed the bytes *)
  url_String : string -> list (string * string) -> string;
    (* url.URL{Path: p, RawQuery: values.Encode()}.String() *)
  parse_charm_archive : list byte -> outcome Charm;
  parse_bundle_archive : list byte -> outcome Bundle;
  parse_charm_dir : gmap string (list byte) -> outcome Charm;
  SeriesForCharm : string -> list string -> outcome string;
}.

Section Repo.
Context `{Externals}.

(** [charm.ReadCharmArchive(path)]. *)
Definition charm_ReadCharmArchive (path : string) : M Charm :=
  fun w =>
    match files w !! path with
    | Some content => (parse_charm_archive content, w)
    | None => (Err (ExtErr false "open: not a regular file"), w)
    end.

(** [charm.ReadBundleArchive(path)]. *)
Definition charm_ReadBundleArchive (path : string) : M Bundle :=
  fun w =>
    match files w !! path with
    | Some content => (parse_bundle_archive content, w)
    | None => (Err (ExtErr false "open: not a regular file"), w)
    end.

(** [charm.ReadCharmDir(path)]. *)
Definition charm_ReadCharmDir (path : string) : M Charm :=
  fun w =>
    match worktrees w !! path with
    | Some tree => (parse_charm_dir tree, w)
    | None => (Err (ExtErr false "open: not a charm directory"), w)
    end.

(** [io.Copy(hash, f)]: the size read and the hash of what was read. *)
Definition io_Copy_hash (content : list byte) : M (Z * string) :=
  ret (Z.of_nat (length content), sha384_hex content).

(** [io.Copy(io.MultiWriter(hash, f), r)]: what the body delivers goes to
    the hash and to the end of the file; a broken transfer is an error. *)
Definition io_Copy_hash_file (f : string) (r : Body) : M (Z * string) :=
  fun w =>
    let w' := log EvBodyRead
                (set_files (alter (fun old => (old ++ body_data r)%list) f) w) in
    if body_broken r then (Err (ExtErr false "unexpected EOF"), w')
    else (Ok (Z.of_nat (length (body_data r)), sha384_hex (body_data r)), w').

(** The calls on [s.client]. *)
Definition client_GetArchive (s : CharmStore) (id : URL)
    : M (Body * URL * string * Z) :=
  fun w => (answer_GetArchive (client s) id, log (EvGetArchive id) w).

Definition client_Meta (s : CharmStore) (id : URL) : M URL :=
  fun w => (answer_Meta (client s) id, log (EvMeta id) w).

Definition client_Get (s : CharmStore) (path : string)
    : M (gmap string MetaAny) :=
  fun w => (answer_Get (client s) path, log (EvGet path) w).

(** ** charmstore.go *)

(** The two [logger.Debugf] calls write to the log only and are left
    out. *)
Definition verifyHash384AndSize (path expectHash : string) (expectSize : Z)
    : M unit :=
  f <- wrap Mask (os_Open path) ;;
  defer (file_Close path) (
    x <- wrap Mask (io_Copy_hash f) ;;
    let '(size, sum) := x in
    if decide (size ≠ expectSize) then
      fail (Newf "size mismatch for %q" [path])
    else if decide (sum ≠ expectHash) then
      fail (Newf "hash mismatch for %q" [path])
    else ret tt).

(** [etype] of [archivePath]. *)
Definition etype_of (curl : URL) : string :=
  if decide (Series curl = "bundle") then "bundle" else "charm".

Definition CharmStore_archivePath (s : CharmStore) (curl : URL) : M string :=
  cacheDir <- gets CacheDir ;;
  wrap (fun err => Notef err "cannot create the cache directory" [])
       (os_MkdirAll cacheDir) ;;
  let etype := etype_of curl in
  x <- wrap (fun err =>
               if cause_is_ErrNotFound err then
                 WithCausefNotFound "cannot retrieve %q: %s not found"
                                    [URL_String curl; etype]
               else NoteMaskAny err "cannot retrieve %s %q"
                                [etype; URL_String curl])
            (client_GetArchive s (Reference curl)) ;;
  let '(r, id, expectHash, expectSize) := x in
  defer body_Close (
    let path := filepath_Join cacheDir (Quote (URL_String id) +:+ "." +:+ etype) in
    cached <- catch (verifyHash384AndSize path expectHash expectSize) ;;
    match cached with
    | None => ret path
    | Some _ =>
        f <- wrap (fun err => Notef err "cannot make temporary file" [])
                  (ioutil_TempFile cacheDir "charm-download") ;;
        defer (file_Close f) (
          y <- wrap (fun err => Notef err "cannot read entity archive" [])
                    (io_Copy_hash_file f r) ;;
          let '(size, sum) := y in
          if decide (size ≠ expectSize) then
            fail (Newf "size mismatch; network corruption?" [])
          else if decide (sum ≠ expectHash) then
            fail (Newf "hash mismatch; network corruption?" [])
          else
            modify (file_Close f) ;;
            wrap (fun err => Notef err "cannot move the entity archive" [])
                 (utils_ReplaceFile f path) ;;
            ret path)
    end).

Definition CharmStore_Get (s : CharmStore) (curl : URL) : M Charm :=
  cacheDir <- gets CacheDir ;;
  if decide (cacheDir = "") then panic "charm cache directory path is empty"
  else if decide (Series curl = "bundle") then
    fail (Newf "expected a charm URL, got bundle URL %q" [URL_String curl])
  else
    path <- wrap MaskAny (CharmStore_archivePath s curl) ;;
    charm_ReadCharmArchive path.

Definition CharmStore_GetBundle (s : CharmStore) (curl : URL) : M Bundle :=
  cacheDir <- gets CacheDir ;;
  if decide (cacheDir = "") then panic "charm cache directory path is empty"
  else if decide (Series curl ≠ "bundle") then
    fail (Newf "expected a bundle URL, got charm URL %q" [URL_String curl])
  else
    path <- wrap MaskAny (CharmStore_archivePath s curl) ;;
    charm_ReadBundleArchive path.

(** [url.Values.Add]; the pairs are kept in the order they were added. *)
Definition values_Add (values : list (string * string)) (key value : string)
    : list (string * string) :=
  (values ++ [(key, value)])%list.

(** The first loop of [Latest], from index [i] on: [urls[i] = url] and
    [values.Add("id", url)] for every reference. *)
Fixpoint Latest_request (i : nat) (curls : list URL) (urls : list string)
    (values : list (string * string)) : list string * list (string * string) :=
  match curls with
  | [] => (urls, values)
  | curl :: rest =>
      let url := URL_String (WithRevision curl (-1)) in
      Latest_request (S i) rest (<[i := url]> urls) (values_Add values "id" url)
  end.

(** The second loop of [Latest], from index [i] on. *)
Fixpoint Latest_responses (i : nat) (urls : list string)
    (results : gmap string MetaAny) (responses : list CharmRevision)
    : list CharmRevision :=
  match urls with
  | [] => responses
  | url :: rest =>
      match results !! url with
      | None =>
          Latest_responses (S i) rest results
            (<[i := {| cr_Revision := 0; cr_Sha256 := "";
                       cr_Err := Some (CharmNotFound url) |}]> responses)
      | Some result =>
          Latest_responses (S i) rest results
            (<[i := {| cr_Revision := IdRevision_Revision result;
                       cr_Sha256 := Hash256_Sum result;
                       cr_Err := None |}]> responses)
      end
  end.

(** The zero value of [CharmRevision]. *)
Definition CharmRevision_zero : CharmRevision :=
  {| cr_Revision := 0; cr_Sha256 := ""; cr_Err := None |}.

Definition CharmStore_Latest (s : CharmStore) (curls : list URL)
    : M (list CharmRevision) :=
  if decide (length curls = 0%nat) then ret []
  else
    let urls := replicate (length curls) "" in
    let values := [] in
    let values := values_Add values "ignore-auth" "1" in
    let values := values_Add values "include" "id-revision" in
    let values := values_Add values "include" "hash256" in
    let '(urls, values) := Latest_request 0 curls urls values in
    let u := url_String "/meta/any" values in
    results <- wrap (fun err =>
                       NoteMaskAny err
                         "cannot get metadata from the charm store" [])
                    (client_Get s u) ;;
    let responses := replicate (length curls) CharmRevision_zero in
    ret (Latest_responses 0 urls results responses).

Definition CharmStore_Resolve (s : CharmStore) (ref : URL)
    : M (URL * list string) :=
  id <- wrap (fun err =>
                if cause_is_ErrNotFound err then
                  let etype :=
                    if decide (Series ref = "bundle") then "bundle"
                    else if decide (Series ref = "") then "charm or bundle"
                    else "charm" in
                  WithCausefNotFound "cannot resolve URL %q: %s not found"
                                     [URL_String ref; etype]
                else NoteMaskAny err "cannot resolve charm URL %q"
                                 [URL_String ref])
             (client_Meta s ref) ;;
  ret (id, []).

(** ** The git backend *)

(** [l[i]]: an index out of range panics. *)
Definition index (l : list string) (i : nat) : M string :=
  match l !! i with
  | Some x => ret x
  | None => panic "index out of range"
  end.

Definition NewGitRepo (ref : URL) : M GitRepo :=
  let tokens := strings_Split (Name ref) "?" in
  reference <- (if decide (1 < length tokens)%nat then index tokens 1
                else ret "HEAD") ;;
  remote <- index tokens 0 ;;
  ret {| remoteURI := remote; reference := reference |}.

Definition GitRepo_archivePath (g : GitRepo) (checkout : URL) : M string :=
  tempDir <- wrap MaskAny (ioutil_TempDir "juju-clone") ;;
  wrap MaskAny
    (git_PlainClone tempDir
       {| opt_URL := remoteURI g;
          opt_ReferenceName := "";
          opt_RecurseSubmodules := DefaultSubmoduleRecursionDepth |}) ;;
  (* the source tests the same [err] once more here, to no effect *)
  ret tempDir.

Definition GitRepo_Get (g : GitRepo) (checkout : URL) : M Charm :=
  if decide (Series checkout = "bundle") then
    fail (Newf "expected a charm URL, got bundle URL %q" [URL_String checkout])
  else
    path <- wrap MaskAny (GitRepo_archivePath g checkout) ;;
    charm_ReadCharmDir path.

Definition GitRepo_GetBundle (g : GitRepo) (checkout : URL) : M Bundle :=
  if decide (Series checkout ≠ "bundle") then
    fail (Newf "expected a bundle URL, got charm URL %q" [URL_String checkout])
  else
    path <- wrap MaskAny (GitRepo_archivePath g checkout) ;;
    charm_ReadBundleArchive path.

Definition GitRepo_Resolve (g : GitRepo) (checkout : URL)
    : M (URL * list string) :=
  if decide (Series checkout = "") then
    fail (Newf "no series specified for %s" [URL_String checkout])
  else if decide (Revision checkout ≠ -1) then ret (checkout, [])
  else if decide (Series checkout = "bundle") then
    ret (WithRevision checkout 0, [])
  else
    ch <- GitRepo_Get g checkout ;;
    lift (SeriesForCharm (Series checkout) (Charm_Meta_Series ch)) ;;
    ret (WithRevision checkout (Charm_Revision ch), []).

(** ** The repository interface

    Both backends are declared to implement [Interface]
    ([var _ Interface = ...] in either file). *)
Class Interface (R : Type) := {
  Get : R -> URL -> M Charm;
  GetBundle : R -> URL -> M Bundle;
  Resolve : R -> URL -> M (URL * list string);
}.

#[global] Instance CharmStore_Interface : Interface CharmStore :=
  {| Get := CharmStore_Get; GetBundle := CharmStore_GetBundle;
     Resolve := CharmStore_Resolve |}.

#[global] Instance GitRepo_Interface : Interface GitRepo :=
  {| Get := GitRepo_Get; GetBundle := GitRepo_GetBundle;
     Resolve := GitRepo_Resolve |}.

(** ** Vocabulary of the statements about the charm store *)

(** The key of a reference in the metadata request and response. *)
Definition Latest_key (curl : URL) : string :=
  URL_String (WithRevision curl (-1)).

(** The request [Latest] sends for [curls]. *)
Definition Latest_query (curls : list URL) : string :=
  url_String "/meta/any"
    ([("ignore-auth", "1"); ("include", "id-revision"); ("include", "hash256")]
     ++ map (fun curl => ("id", Latest_key curl)) curls).

(** What the response says about one key. *)
Definition Latest_slot (results : gmap string MetaAny) (url : string)
    : CharmRevision :=
  match results !! url with
  | None => {| cr_Revision := 0; cr_Sha256 := "";
               cr_Err := Some (CharmNotFound url) |}
  | Some result => {| cr_Revision := IdRevision_Revision result;
                      cr_Sha256 := Hash256_Sum result;
                      cr_Err := None |}
  end.

(** The path [archivePath] computes for the entity [id] the store names. *)
Definition canonical_path (w : World) (id curl : URL) : string :=
  filepath_Join (CacheDir w) (Quote (URL_String id) +:+ "." +:+ etype_of curl).

(** The file at [path] has the expected size and hash. *)
Definition cached (w : World) (path expectHash : string) (expectSize : Z)
    : Prop :=
  exists content,
    files w !! path = Some content
    /\ Z.of_nat (length content) = expectSize
    /\ sha384_hex content = expectHash.

End Repo.

(** ** Vocabulary of the statements *)

(** The byte [c] occurs in [s]. *)
Fixpoint has_byte (c : ascii) (s : string) : bool :=
  match s with
  | EmptyString => false
  | String c' rest => if decide (c' = c) then true else has_byte c rest
  end.

(** The last byte of a string. *)
Fixpoint last_byte (s : string) : option ascii :=
  match s with
  | EmptyString => None
  | String c EmptyString => Some c
  | String _ rest => last_byte rest
  end.


(** The path [p] lies directly in the directory [dir]. *)
Definition in_dir (dir p : string) : Prop :=
  exists name, p = filepath_Join dir name.

(** The path [p] is one that [ioutil.TempFile] and [ioutil.TempDir] can make
    in [dir] for the prefix [pfx]. *)
Definition temp_name (dir pfx p : string) : Prop :=
  exists n, p = filepath_Join dir (pfx +:+ nextSuffix n).

(** ** A sample instance

    Small stand-ins for the outside functions and a few worlds, on which
    the definitions above can be run. *)
Module Sample.

(** A sum of the bytes, in decimal, standing in for the SHA-384 digest. *)
Definition checksum (bs : list byte) : string :=
  pretty (foldr (fun b acc => ((Byte.to_N b + acc) mod 65536)%N) 0%N bs).

(** The layout of [curl.String()]: schema, series, name, revision. *)
Definition render_URL (u : URL) : string :=
  Schema u +:+ ":" +:+
  (if decide (Series u = "") then "" else Series u +:+ "/") +:+
  Name u +:+
  (if decide (0 <= Revision u)%Z then "-" +:+ pretty (Revision u) else "").

Definition render_query (path : string) (values : list (string * string))
    : string :=
  path +:+ "?" +:+
  foldr (fun kv acc => fst kv +:+ "=" +:+ snd kv +:+ "&" +:+ acc) "" values.

(** A charm is its declared series and its revision; the revision of a
    charm directory is the size of its [revision] file. *)
Definition read_dir (tree : gmap string (list byte))
    : outcome (list string * Z) :=
  match tree !! "revision" with
  | Some bs => Ok (["trusty"], Z.of_nat (length bs))
  | None => Err (ExtErr false "no revision file")
  end.

Definition series_for (requested : string) (supported : list string)
    : outcome string :=
  if bool_decide (requested ∈ supported) then Ok requested
  else Err (ExtErr false "series not supported by charm").

Definition ext : Externals := {|
  Charm := list string * Z;
  Bundle := list byte;
  Charm_Meta_Series := fst;
  Charm_Revision := snd;
  URL_String := render_URL;
  Quote := fun s => s;
  sha384_hex := checksum;
  url_String := render_query;
  parse_charm_archive := fun bs => Ok (["trusty"], Z.of_nat (length bs));
  parse_bundle_archive := fun bs => Ok bs;
  parse_charm_dir := read_dir;
  SeriesForCharm := series_for;
|}.

Definition mysql : URL :=
  {| Schema := "cs"; User := ""; Name := "mysql"; Revision := 5;
     Series := "trusty" |}.
Definition wordpress : URL :=
  {| Schema := "cs"; User := ""; Name := "wordpress"; Revision := -1;
     Series := "trusty" |}.
Definition wiki_bundle : URL :=
  {| Schema := "cs"; User := ""; Name := "wiki"; Revision := -1;
     Series := "bundle" |}.

Definition abc : list byte := [x61; x62; x63]%byte.

(** A store that serves the three bytes [abc] for every archive and
    declares the given hash and size for them; it knows the revision of
    [mysql] only, and has no entity at all for [Meta]. *)
Definition store (expectHash : string) (expectSize : Z) : CharmStore :=
  {| client := {|
       answer_GetArchive := fun id =>
         Ok ({| body_data := abc; body_broken := false |}, id,
             expectHash, expectSize);
       answer_Meta := fun id => Err (ExtErr true "entity not found");
       answer_Get := fun _ =>
         Ok {[ "cs:trusty/mysql" :=
                 {| IdRevision_Revision := 9; Hash256_Sum := "f00d" |} ]};
     |} |}.

(** A git remote whose HEAD and whose tag [v1] hold different trees. *)
Definition tree_HEAD : gmap string (list byte) := {[ "revision" := abc ]}.
Definition tree_v1 : gmap string (list byte) := {[ "revision" := [x61]%byte ]}.

Definition world (cacheDir : string) (fs : gmap string (list byte)) : World :=
  {| CacheDir := cacheDir;
     dirs := {[ "/cache" ]};
     files := fs;
     worktrees := ∅;
     remotes := {[ "https://git.example/mysql" :=
                     {[ "HEAD" := tree_HEAD; "v1" := tree_v1 ]} ]};
     rand := [7%nat];
     trace := [] |}.

Definition git_mysql (name : string) (revision : Z) : URL :=
  {| Schema := "git"; User := ""; Name := name; Revision := revision;
     Series := "trusty" |}.

End Sample.

(** * process/api/server: the status of the workload processes of a unit *)

(** The packages [state] and [process/api], as far as [UnitStatus] calls
    them. *)
Class StatusExternals := {
  State : Type;
  UnitTag : Type;
  UnitProcesses : Type;
  process_Info : Type;
  api_Process : Type;
  State_UnitProcesses : State -> UnitTag -> outcome UnitProcesses;
    (* st.UnitProcesses(unitTag) *)
  UnitProcesses_List : UnitProcesses -> outcome (list process_Info);
    (* unitProcesses.List() *)
  api_Proc2api : process_Info -> api_Process;
  api_Process_zero : api_Process;
    (* the zero value [make] fills a slice with *)
}.

Section Status.
Context `{StatusExternals}.

(** [results[i] = x]: an index out of range panics. *)
Definition assign_index (results : list api_Process) (i : nat)
    (x : api_Process) : outcome (list api_Process) :=
  if decide (i < length results)%nat then Ok (<[i := x]> results)
  else Panic "index out of range".

(** [for i, p := range procs { results[i] = api.Proc2api(p) }], from the
    index [i] on. *)
Fixpoint UnitStatus_range (i : nat) (procs : list process_Info)
    (results : list api_Process) : outcome (list api_Process) :=
  match procs with
  | [] => Ok results
  | p :: rest =>
      match assign_index results i (api_Proc2api p) with
      | Ok results' => UnitStatus_range (S i) rest results'
      | Err err => Err err
      | Panic msg => Panic msg
      end
  end.

Definition UnitStatus (st : State) (unitTag : UnitTag)
    : outcome (list api_Process) :=
  match State_UnitProcesses st unitTag with
  | Ok unitProcesses =>
      match UnitProcesses_List unitProcesses with
      | Ok procs =>
          UnitStatus_range 0 procs
            (replicate (length procs) api_Process_zero)
      | Err err => Err err
      | Panic msg => Panic msg
      end
  | Err err => Err err
  | Panic msg => Panic msg
  end.

End Status.

(** * charmrepo: the client behind a store

    The one field of a [CharmStore] is a pointer to its [csclient.Client].
    [newRepo := *s] copies that pointer, so the methods below work on the
    client of their receiver. *)

(** [http.Header]: the values under each key, in the order they were
    added. *)
Abbreviation Header := (gmap string (list string)).

(** [header.Add(key, value)], for a key that is in canonical form as
    "Juju-Metadata" is. *)
Definition Header_Add (key value : string) (header : Header) : Header :=
  <[key := (default [] (header !! key) ++ [value])%list]> header.

Definition JujuMetadataHTTPHeader : string := "Juju-Metadata".

(** The two methods of [csclient.Client] called here; what they do to a
    client is left open. *)
Class ClientMethods := {
  ClientState : Type;
  DisableStats : ClientState -> ClientState;
  SetHTTPHeader : Header -> ClientState -> ClientState;
}.

(** A [CharmStore] value with its pointer field. *)
Record StoreValue := { client_ptr : nat }.

(** The clients there are, by address. *)
Abbreviation Heap := (gmap nat ClientState).

Section Client.
Context `{ClientMethods}.

(** A method call [p.f()] that updates the client at [p]; a nil or
    dangling [p] panics. *)
Definition on_client (f : ClientState -> ClientState) (p : nat) (h : Heap)
    : outcome unit * Heap :=
  match h !! p with
  | Some c => (Ok tt, <[p := f c]> h)
  | None => (Panic "invalid memory address or nil pointer dereference", h)
  end.

Definition WithTestMode (s : StoreValue) (h : Heap)
    : outcome StoreValue * Heap :=
  let newRepo := {| client_ptr := client_ptr s |} in
  match on_client DisableStats (client_ptr newRepo) h with
  | (Ok _, h') => (Ok newRepo, h')
  | (Err err, h') => (Err err, h')
  | (Panic msg, h') => (Panic msg, h')
  end.

(** [for k, v := range attrs { header.Add(JujuMetadataHTTPHeader, k+"="+v) }]
    on a fresh header, where [visited] lists the entries of [attrs] in the
    order the range yields them. *)
Definition WithJujuAttrs_header (visited : list (string * string)) : Header :=
  foldl (fun header kv =>
           Header_Add JujuMetadataHTTPHeader (kv.1 +:+ "=" +:+ kv.2) header)
        ∅ visited.

Definition WithJujuAttrs (s : StoreValue) (visited : list (string * string))
    (h : Heap) : outcome StoreValue * Heap :=
  let newRepo := {| client_ptr := client_ptr s |} in
  let header := WithJujuAttrs_header visited in
  match on_client (SetHTTPHeader header) (client_ptr newRepo) h with
  | (Ok _, h') => (Ok newRepo, h')
  | (Err err, h') => (Err err, h')
  | (Panic msg, h') => (Panic msg, h')
  end.

End Client.

(** The range over a map yields every entry once, in an order that is not
    fixed. *)
Definition range_of (attrs : gmap string string)
    (visited : list (string * string)) : Prop :=
  visited ≡ₚ map_to_list attrs.

(** ** More sample instances *)
Module Fixtures.

(** A store that knows no entity and whose metadata endpoint is down. *)
Definition refusing : CharmStore :=
  {| client := {|
       answer_GetArchive := fun _ => Err (ExtErr true "entity not found");
       answer_Meta := fun _ => Err (ExtErr true "entity not found");
       answer_Get := fun _ => Err (ExtErr false "connection refused");
     |} |}.

(** Units are numbered; unit 0 runs the processes 3, 1 and 2, the listing
    of unit 1 fails, and there is no other unit.  The API form of a
    process is its number as text. *)
Definition status : StatusExternals := {|
  State := unit;
  UnitTag := nat;
  UnitProcesses := nat;
  process_Info := nat;
  api_Process := string;
  State_UnitProcesses := fun _ tag =>
    if decide (tag < 2)%nat then Ok tag
    else Err (ExtErr true "unit not found");
  UnitProcesses_List := fun up =>
    if decide (up = 0)%nat then Ok [3; 1; 2]%nat
    else Err (ExtErr false "cannot list processes");
  api_Proc2api := fun p => pretty p;
  api_Process_zero := "";
|}.

(** A client is its statistics switch and its header. *)
Definition client_methods : ClientMethods := {|
  ClientState := bool * Header;
  DisableStats := fun c => (true, c.2);
  SetHTTPHeader := fun header c => (c.1, header);
|}.

(** A client that counts downloads and sends no header, and a heap with
    two of them. *)
Definition plain_client : bool * Header := (false, ∅).
Definition two_clients : gmap nat (bool * Header) :=
  {[ 1%nat := plain_client; 2%nat := plain_client ]}.

End Fixtures.

(** * Properties *)

Section Properties.
Context `{Externals}.

(** Unfolds the monad's plumbing. *)
Ltac run :=
  unfold bind, ret, fail, panic, gets, modify, lift, wrap, catch, defer.

(** ** Type checks of [Get] and [GetBundle] *)

(** C5.  [Get] on a reference whose series is "bundle" and [GetBundle] on
    a reference whose series is not "bundle" return the type-mismatch error
    of the source and leave the world as it was: no directory is made,
    nothing is fetched or cloned, no call is traced.  This holds on the git
    backend, and on the charm store once [CacheDir] is set (the check of
    [CacheDir] comes first there). *)
Theorem Get_GetBundle_type_mismatch
    (s : CharmStore) (g : GitRepo) (curl : URL) (w : World) :
  (Series curl = "bundle" ->
     Get g curl w =
       (Err (Newf "expected a charm URL, got bundle URL %q" [URL_String curl]), w)
     /\ (CacheDir w ≠ "" ->
         Get s curl w =
           (Err (Newf "expected a charm URL, got bundle URL %q"
                      [URL_String curl]), w)))
  /\
  (Series curl ≠ "bundle" ->
     GetBundle g curl w =
       (Err (Newf "expected a bundle URL, got charm URL %q" [URL_String curl]), w)
     /\ (CacheDir w ≠ "" ->
         GetBundle s curl w =
           (Err (Newf "expected a bundle URL, got charm URL %q"
                      [URL_String curl]), w))).
Proof.
  split; intros Hs; split; cbn.
  - unfold GitRepo_Get. run. case_decide; congruence.
  - intros Hdir. unfold CharmStore_Get. run. repeat case_decide; congruence.
  - unfold GitRepo_GetBundle. run. case_decide; congruence.
  - intros Hdir. unfold CharmStore_GetBundle. run.
    repeat case_decide; congruence.
Qed.

(** C7.  With [CacheDir] empty, [Get] and [GetBundle] of the charm store
    panic at once: the world is untouched, so no directory was made and no
    archive was asked for. *)
Theorem Get_GetBundle_panic_without_CacheDir
    (s : CharmStore) (curl : URL) (w : World) :
  CacheDir w = "" ->
  CharmStore_Get s curl w = (Panic "charm cache directory path is empty", w)
  /\ CharmStore_GetBundle s curl w =
       (Panic "charm cache directory path is empty", w).
Proof.
  intros Hdir. unfold CharmStore_Get, CharmStore_GetBundle. run.
  split; case_decide; congruence.
Qed.

(** ** Resolve *)

(** What [CharmStore.Resolve] does, whatever the reference: one [Meta]
    call, whose answer decides the result. *)
Lemma CharmStore_Resolve_calls_Meta (s : CharmStore) (ref : URL) (w : World) :
  exists o,
    CharmStore_Resolve s ref w = (o, log (EvMeta ref) w)
    /\ (forall id, answer_Meta (client s) ref = Ok id -> o = Ok (id, []))
    /\ (forall r l, o = Ok (r, l) -> answer_Meta (client s) ref = Ok r /\ l = []).
Proof.
  unfold CharmStore_Resolve, client_Meta. run.
  destruct (answer_Meta (client s) ref) as [id|e|msg]; eexists;
    (split; [reflexivity|]); split; intros; congruence || (split; congruence).
Qed.

Lemma GitRepo_Resolve_pinned (g : GitRepo) (checkout : URL) (w : World) :
  Series checkout ≠ "" -> Revision checkout ≠ -1 ->
  GitRepo_Resolve g checkout w = (Ok (checkout, []), w).
Proof.
  intros Hs Hr. unfold GitRepo_Resolve. run. repeat case_decide; congruence.
Qed.

(** C3, as amended.  For a reference with a series and a pinned revision,
    [GitRepo.Resolve] returns the reference itself with no error and leaves
    the world as it was (nothing is cloned).  [CharmStore.Resolve] has no
    such shortcut: it makes one [Meta] call and returns the id the store
    answers with. *)
Theorem Resolve_pinned
    (s : CharmStore) (g : GitRepo) (ref : URL) (w : World) :
  Series ref ≠ "" -> Revision ref ≠ -1 ->
  Resolve g ref w = (Ok (ref, []), w)
  /\ exists o,
       Resolve s ref w = (o, log (EvMeta ref) w)
       /\ (forall id, answer_Meta (client s) ref = Ok id -> o = Ok (id, []))
       /\ (forall r l, o = Ok (r, l) ->
             answer_Meta (client s) ref = Ok r /\ l = []).
Proof.
  intros Hs Hr. split.
  - cbn. by apply GitRepo_Resolve_pinned.
  - cbn. apply CharmStore_Resolve_calls_Meta.
Qed.

(** C6.  [GitRepo.Resolve] on an unpinned bundle reference returns it with
    revision 0 and leaves the world as it was: nothing is cloned or read. *)
Theorem GitRepo_Resolve_bundle (g : GitRepo) (checkout : URL) (w : World) :
  Series checkout = "bundle" -> Revision checkout = -1 ->
  GitRepo_Resolve g checkout w = (Ok (WithRevision checkout 0, []), w).
Proof.
  intros Hs Hr. unfold GitRepo_Resolve. run. rewrite Hs, Hr.
  repeat case_decide; congruence.
Qed.

(** C10.  Whenever [Resolve] succeeds, on either backend, the list of
    series it returns next to the reference is empty. *)
Theorem Resolve_series_list_empty
    (s : CharmStore) (g : GitRepo) (ref : URL) (w : World)
    (r : URL) (l : list string) :
  (Resolve s ref w).1 = Ok (r, l) \/ (Resolve g ref w).1 = Ok (r, l) ->
  l = [].
Proof.
  intros [Hres|Hres]; cbn in Hres.
  - destruct (CharmStore_Resolve_calls_Meta s ref w) as (o & Ho & _ & Hok).
    rewrite Ho in Hres. by destruct (Hok r l).
  - revert Hres. unfold GitRepo_Resolve. run.
    repeat case_decide; cbn; try congruence.
    destruct (GitRepo_Get g ref w) as [[ch|e|msg] w1]; cbn; try congruence.
    destruct (SeriesForCharm (Series ref) (Charm_Meta_Series ch));
      cbn; congruence.
Qed.

(** The [reference] of a [GitRepo] plays no part in [archivePath]. *)
Lemma GitRepo_archivePath_reference_unused
    (uri ref1 ref2 : string) (checkout : URL) (w : World) :
  GitRepo_archivePath {| remoteURI := uri; reference := ref1 |} checkout w
  = GitRepo_archivePath {| remoteURI := uri; reference := ref2 |} checkout w.
Proof. unfold GitRepo_archivePath. cbn [remoteURI]. reflexivity. Qed.

(** ** NewGitRepo *)

Lemma append_nil_l (s : string) : "" +:+ s = s.
Proof. reflexivity. Qed.

Lemma append_cons (c : ascii) (s t : string) :
  String c s +:+ t = String c (s +:+ t).
Proof. reflexivity. Qed.

Lemma strings_Split_no_sep (s : string) (sep : ascii) :
  has_byte sep s = false -> strings_Split s sep = [s].
Proof.
  induction s as [|c rest IH]; cbn; [done|].
  case_decide; [done|]. intros Hrest. by rewrite (IH Hrest).
Qed.

Lemma strings_Split_at (u r : string) (sep : ascii) :
  has_byte sep u = false ->
  strings_Split (u +:+ String sep r) sep = u :: strings_Split r sep.
Proof.
  induction u as [|c u IH]; cbn.
  - intros _. rewrite append_nil_l. cbn. by rewrite decide_True.
  - rewrite append_cons. cbn. case_decide; [done|].
    intros Hu. by rewrite (IH Hu).
Qed.

(** C8.  [NewGitRepo] never fails.  When the name holds no "?", the remote
    URI is the whole name and the reference is "HEAD".  When the name is
    [u?r], the remote URI is [u] and the reference is [r]; should more
    "?" follow, the reference ends at the next one. *)
Theorem NewGitRepo_splits_name (ref : URL) (w : World) :
  (has_byte "?" (Name ref) = false ->
     NewGitRepo ref w =
       (Ok {| remoteURI := Name ref; reference := "HEAD" |}, w))
  /\ (forall u r,
        Name ref = u +:+ "?" +:+ r ->
        has_byte "?" u = false -> has_byte "?" r = false ->
        NewGitRepo ref w = (Ok {| remoteURI := u; reference := r |}, w))
  /\ (forall u r rest,
        Name ref = u +:+ "?" +:+ r +:+ "?" +:+ rest ->
        has_byte "?" u = false -> has_byte "?" r = false ->
        NewGitRepo ref w = (Ok {| remoteURI := u; reference := r |}, w)).
Proof.
  unfold NewGitRepo. split; [|split].
  - intros Hn. by rewrite (strings_Split_no_sep _ _ Hn).
  - intros u r -> Hu Hr. change ("?" +:+ r) with (String "?" r).
    by rewrite (strings_Split_at _ _ _ Hu), (strings_Split_no_sep _ _ Hr).
  - intros u r rest -> Hu Hr.
    change ("?" +:+ r +:+ "?" +:+ rest) with (String "?" (r +:+ String "?" rest)).
    rewrite (strings_Split_at _ _ _ Hu), (strings_Split_at _ _ _ Hr).
    destruct (strings_Split rest "?"); reflexivity.
Qed.

(** ** Latest *)

Lemma Latest_request_spec (curls : list URL) :
  forall (i : nat) (urls : list string) (values : list (string * string)),
    length urls = (i + length curls)%nat ->
    Latest_request i curls urls values =
      (take i urls ++ map Latest_key curls,
       values ++ map (fun curl => ("id", Latest_key curl)) curls).
Proof.
  induction curls as [|curl rest IH]; intros i urls values Hlen; cbn in *.
  - rewrite !app_nil_r, take_ge by lia. reflexivity.
  - rewrite IH by (rewrite length_insert; lia).
    assert (Hi : (i < length urls)%nat) by lia.
    rewrite (take_S_r _ _ (Latest_key curl))
      by (by apply list_lookup_insert_eq).
    rewrite take_insert_ge by lia.
    unfold values_Add. by rewrite <- !app_assoc.
Qed.

Lemma Latest_responses_spec (results : gmap string MetaAny) (urls : list string) :
  forall (i : nat) (responses : list CharmRevision),
    length responses = (i + length urls)%nat ->
    Latest_responses i urls results responses =
      take i responses ++ map (Latest_slot results) urls.
Proof.
  induction urls as [|url rest IH]; intros i responses Hlen; cbn in *.
  - rewrite app_nil_r, take_ge by lia. reflexivity.
  - assert (Hi : (i < length responses)%nat) by lia.
    destruct (results !! url) as [result|] eqn:Hurl;
      (rewrite IH by (rewrite length_insert; lia));
      (erewrite take_S_r by (by apply list_lookup_insert_eq));
      rewrite take_insert_ge by lia; rewrite <- app_assoc;
      unfold Latest_slot at 2; by rewrite Hurl.
Qed.

(** C4.  [Latest] of no reference returns no result and leaves the world
    as it was (no call is traced).  [Latest] of [n] references makes one
    metadata request; when the store answers it with [results], the call
    succeeds with exactly [n] results, the one at position [i] being that
    of the [i]-th reference: a NotFound error when [results] has no entry
    for the reference's key, the entry's revision and hash otherwise. *)
Theorem Latest_aligned (s : CharmStore) (curls : list URL) (w : World) :
  CharmStore_Latest s [] w = (Ok [], w)
  /\ forall results : gmap string MetaAny,
       answer_Get (client s) (Latest_query curls) = Ok results ->
       exists responses,
         CharmStore_Latest s curls w =
           (Ok responses, if decide (curls = []) then w
                          else log (EvGet (Latest_query curls)) w)
         /\ length responses = length curls
         /\ forall (i : nat) (curl : URL),
              curls !! i = Some curl ->
              responses !! i =
                Some (match results !! Latest_key curl with
                      | None =>
                          {| cr_Revision := 0; cr_Sha256 := "";
                             cr_Err := Some (CharmNotFound (Latest_key curl)) |}
                      | Some result =>
                          {| cr_Revision := IdRevision_Revision result;
                             cr_Sha256 := Hash256_Sum result;
                             cr_Err := None |}
                      end).
Proof.
  split; [reflexivity|]. intros results Hget.
  exists (map (Latest_slot results) (map Latest_key curls)).
  split; [|split].
  - unfold CharmStore_Latest.
    destruct curls as [|curl rest]; [reflexivity|].
    rewrite decide_False by (cbn; lia).
    rewrite (decide_False (P := curl :: rest = [])) by done.
    unfold values_Add at 1 2 3.
    rewrite Latest_request_spec by (rewrite length_replicate; lia).
    unfold Latest_query in *. cbn [take app] in *.
    unfold client_Get. run. rewrite Hget.
    rewrite Latest_responses_spec
      by (rewrite length_replicate; cbn; rewrite ?length_map; lia).
    reflexivity.
  - by rewrite !length_map.
  - intros i curl Hi.
    rewrite !list_lookup_fmap, Hi. reflexivity.
Qed.

(** ** The cache of the charm store *)

Lemma verify_hit (path expectHash : string) (expectSize : Z) (w : World)
    (content : list byte) :
  files w !! path = Some content ->
  Z.of_nat (length content) = expectSize ->
  sha384_hex content = expectHash ->
  verifyHash384AndSize path expectHash expectSize w =
    (Ok tt, file_Close path w).
Proof.
  intros Hf Hsize Hsum. unfold verifyHash384AndSize, os_Open, io_Copy_hash.
  run. rewrite Hf. repeat case_decide; done.
Qed.

Lemma verify_miss (path expectHash : string) (expectSize : Z) (w : World) :
  ~ cached w path expectHash expectSize ->
  exists e w',
    verifyHash384AndSize path expectHash expectSize w = (Err e, w')
    /\ (w' = w \/ w' = file_Close path w).
Proof.
  intros Hmiss. unfold verifyHash384AndSize, os_Open, io_Copy_hash. run.
  destruct (files w !! path) as [content|] eqn:Hf; [|eauto].
  repeat case_decide; eauto.
  destruct Hmiss. exists content. repeat split; [done| |].
  - by destruct (decide (Z.of_nat (length content) = expectSize)).
  - by destruct (decide (sha384_hex content = expectHash)).
Qed.

(** C2.  When [CacheDir] is set and exists, the store answers [GetArchive]
    and the file at the canonical path has exactly the expected size and
    hash, [archivePath] returns that path; no file or directory changes,
    and of the archive body the trace shows the close only, not a read. *)
Theorem archivePath_cache_hit
    (s : CharmStore) (curl : URL) (w : World)
    (r : Body) (id : URL) (expectHash : string) (expectSize : Z) :
  CacheDir w ≠ "" ->
  CacheDir w ∈ dirs w ->
  answer_GetArchive (client s) (Reference curl) =
    Ok (r, id, expectHash, expectSize) ->
  cached w (canonical_path w id curl) expectHash expectSize ->
  exists w',
    CharmStore_archivePath s curl w = (Ok (canonical_path w id curl), w')
    /\ files w' = files w
    /\ dirs w' = dirs w
    /\ rand w' = rand w
    /\ trace w' =
         trace w ++ [EvGetArchive (Reference curl);
                     EvFileClose (canonical_path w id curl);
                     EvBodyClose].
Proof.
  intros Hset Hdir Hget (content & Hf & Hsize & Hsum).
  unfold CharmStore_archivePath, os_MkdirAll, client_GetArchive.
  unfold bind at 1 2 3, gets, wrap at 1 2.
  rewrite decide_False by done.
  rewrite bool_decide_eq_true_2 by done. rewrite Hget.
  unfold defer at 1, bind at 1, catch.
  fold (canonical_path w id curl).
  rewrite (verify_hit _ _ _ _ content) by done.
  eexists. split; [reflexivity|]. cbn. by rewrite <- !app_assoc.
Qed.

(** *** Names of temporary files *)

Lemma append_nil_r (s : string) : s +:+ "" = s.
Proof. induction s as [|c s IH]; [done|]. by rewrite append_cons, IH. Qed.

Lemma append_ne_nil_r (s t : string) : t ≠ "" -> s +:+ t ≠ "".
Proof.
  intros Ht. destruct s; [by rewrite append_nil_l|by rewrite append_cons].
Qed.

Lemma last_byte_app (s t : string) :
  t ≠ "" -> last_byte (s +:+ t) = last_byte t.
Proof.
  intros Ht. induction s as [|c s IH]; [done|].
  rewrite append_cons. cbn. rewrite IH.
  destruct (s +:+ t) eqn:Hst; [|done].
  destruct s; [|done]. by rewrite append_nil_l in Hst.
Qed.

Lemma filepath_Join_ne_dir (dir name : string) : filepath_Join dir name ≠ dir.
Proof.
  unfold filepath_Join. intros Heq.
  rewrite <- (append_nil_r dir) in Heq at 2.
  by apply (inj (String.append dir)) in Heq.
Qed.

Lemma last_byte_nextSuffix (r : nat) :
  last_byte (nextSuffix r) = Some (digit_char r).
Proof. unfold nextSuffix. cbn [digits]. by rewrite last_byte_app. Qed.

Lemma last_byte_temp_name (dir pfx : string) (r : nat) :
  last_byte (filepath_Join dir (pfx +:+ nextSuffix r)) = Some (digit_char r).
Proof.
  assert (Hne : nextSuffix r ≠ "").
  { intros Hs. pose proof (last_byte_nextSuffix r) as Hl. by rewrite Hs in Hl. }
  unfold filepath_Join.
  rewrite !last_byte_app by (repeat apply append_ne_nil_r; done).
  apply last_byte_nextSuffix.
Qed.

Lemma digit_char_is_digit (r : nat) :
  digit_char r ≠ "m"%char /\ digit_char r ≠ "e"%char.
Proof.
  unfold digit_char. pose proof (Nat.mod_upper_bound r 10 ltac:(lia)) as Hlt.
  remember (r mod 10)%nat as d eqn:Hd. clear Hd.
  do 10 (destruct d as [|d];
         [split; intros Heq; vm_compute in Heq; discriminate|]).
  lia.
Qed.

Lemma last_byte_canonical_path (w : World) (id curl : URL) :
  last_byte (canonical_path w id curl) = Some "m"%char
  \/ last_byte (canonical_path w id curl) = Some "e"%char.
Proof.
  unfold canonical_path, filepath_Join, etype_of.
  case_decide; [right|left];
    by rewrite !last_byte_app by (repeat apply append_ne_nil_r; done).
Qed.

Lemma temp_name_ne_canonical_path
    (w : World) (id curl : URL) (dir pfx : string) (r : nat) :
  filepath_Join dir (pfx +:+ nextSuffix r) ≠ canonical_path w id curl.
Proof.
  intros Heq. pose proof (last_byte_temp_name dir pfx r) as Ht.
  rewrite Heq in Ht. destruct (digit_char_is_digit r) as [Hm He].
  destruct (last_byte_canonical_path w id curl) as [Hl|Hl];
    rewrite Hl in Ht; congruence.
Qed.

Lemma fresh_name_spec (taken : string -> bool) (dir pfx : string)
    (rs rs' : list nat) (name : string) :
  fresh_name taken dir pfx rs = Some (name, rs') ->
  taken name = false
  /\ exists r, name = filepath_Join dir (pfx +:+ nextSuffix r).
Proof.
  induction rs as [|r rs IH]; cbn [fresh_name]; [done|].
  destruct (taken (filepath_Join dir (pfx +:+ nextSuffix r))) eqn:Ht;
    [exact IH|].
  intros [= <- <-]. eauto.
Qed.

Lemma fresh_name_ext (taken taken' : string -> bool) (dir pfx : string)
    (rs : list nat) :
  (forall r, taken (filepath_Join dir (pfx +:+ nextSuffix r))
             = taken' (filepath_Join dir (pfx +:+ nextSuffix r))) ->
  fresh_name taken dir pfx rs = fresh_name taken' dir pfx rs.
Proof.
  intros Hext. induction rs as [|r rs IH]; cbn [fresh_name]; [done|].
  by rewrite Hext, IH.
Qed.

(** *** A download that does not match *)

Lemma os_MkdirAll_ok (dir : string) (w : World) :
  dir ≠ "" ->
  dir ∈ dirs w \/ files w !! dir = None ->
  exists w1,
    os_MkdirAll dir w = (Ok tt, w1)
    /\ dir ∈ dirs w1
    /\ (forall p, p ≠ dir -> p ∈ dirs w1 <-> p ∈ dirs w)
    /\ files w1 = files w /\ rand w1 = rand w.
Proof.
  intros Hset Hdir. unfold os_MkdirAll. rewrite decide_False by done.
  case_bool_decide as Hin.
  - by exists w.
  - destruct Hdir as [Hdir| ->]; [done|].
    eexists. split; [reflexivity|]. cbn.
    repeat split; [apply elem_of_union; left; by apply elem_of_singleton|..].
    + intros [Hp|Hp]%elem_of_union; [by apply elem_of_singleton in Hp|done].
    + intros Hp. apply elem_of_union. by right.
Qed.

Lemma ioutil_TempFile_ok (w3 w : World) (dir pfx f : string) (rs : list nat) :
  dir ∈ dirs w3 ->
  (forall p, p ≠ dir -> p ∈ dirs w3 <-> p ∈ dirs w) ->
  files w3 = files w -> rand w3 = rand w ->
  fresh_name (exists_at w) dir pfx (rand w) = Some (f, rs) ->
  ioutil_TempFile dir pfx w3 =
    (Ok f, set_files (fun m => <[f := []]> m) (set_rand rs w3)).
Proof.
  intros Hdir Hdirs Hfiles Hrand Hfresh. unfold ioutil_TempFile.
  rewrite bool_decide_eq_true_2 by done.
  rewrite (fresh_name_ext _ (exists_at w)), Hrand, Hfresh; [done|].
  intros r. unfold exists_at. rewrite Hfiles. f_equal.
  apply bool_decide_ext, Hdirs, filepath_Join_ne_dir.
Qed.

(** C1, as amended.  Let [CacheDir] be set and exist or be creatable, the
    store answer [GetArchive], the canonical path hold no matching file, a
    temporary name [f] be free and the body arrive whole.  If the bytes
    received differ from the expected size, or from the expected hash,
    [archivePath] fails with the size-mismatch error when the sizes differ
    and with the hash-mismatch error otherwise; the canonical path holds
    what it held before; and the temporary file stays behind: the files
    after the call are those before it plus [f], which holds the bytes
    received. *)
Theorem archivePath_mismatch
    (s : CharmStore) (curl : URL) (w : World)
    (r : Body) (id : URL) (expectHash : string) (expectSize : Z)
    (f : string) (rs : list nat) :
  CacheDir w ≠ "" ->
  CacheDir w ∈ dirs w \/ files w !! CacheDir w = None ->
  answer_GetArchive (client s) (Reference curl) =
    Ok (r, id, expectHash, expectSize) ->
  ~ cached w (canonical_path w id curl) expectHash expectSize ->
  fresh_name (exists_at w) (CacheDir w) "charm-download" (rand w) =
    Some (f, rs) ->
  body_broken r = false ->
  Z.of_nat (length (body_data r)) ≠ expectSize
  \/ sha384_hex (body_data r) ≠ expectHash ->
  exists w',
    CharmStore_archivePath s curl w =
      (Err (Newf (if decide (Z.of_nat (length (body_data r)) ≠ expectSize)
                  then "size mismatch; network corruption?"
                  else "hash mismatch; network corruption?") []), w')
    /\ files w !! f = None
    /\ files w' = <[f := body_data r]> (files w)
    /\ files w' !! canonical_path w id curl
         = files w !! canonical_path w id curl.
Proof.
  intros Hset Hdir Hget Hmiss Hfresh Hbody Hbad.
  destruct (fresh_name_spec _ _ _ _ _ _ Hfresh) as [Htaken [n Hname]].
  assert (Hnew : files w !! f = None).
  { unfold exists_at in Htaken. apply orb_false_elim in Htaken as [_ Hf].
    apply bool_decide_eq_false in Hf. by apply eq_None_not_Some. }
  assert (Hpath : f ≠ canonical_path w id curl).
  { rewrite Hname. apply temp_name_ne_canonical_path. }
  unfold CharmStore_archivePath.
  unfold bind at 1 2 3, gets, wrap at 1 2.
  destruct (os_MkdirAll_ok _ _ Hset Hdir)
    as (w1 & -> & Hin & Hdirs & Hfiles & Hrand).
  unfold client_GetArchive. rewrite Hget.
  fold (canonical_path w id curl).
  unfold defer at 1, bind at 1, catch.
  assert (Hmiss1 : ~ cached (log (EvGetArchive (Reference curl)) w1)
                     (canonical_path w id curl) expectHash expectSize).
  { unfold cached. cbn. by rewrite Hfiles. }
  destruct (verify_miss _ _ _ _ Hmiss1) as (e & w3 & -> & Hw3).
  assert (Hw3' : CacheDir w ∈ dirs w3
                 /\ (forall p, p ≠ CacheDir w -> p ∈ dirs w3 <-> p ∈ dirs w)
                 /\ files w3 = files w /\ rand w3 = rand w).
  { by destruct Hw3 as [-> | ->]. }
  clear Hw3. destruct Hw3' as (Hin3 & Hdirs3 & Hfiles3 & Hrand3).
  unfold bind at 1, wrap at 1.
  rewrite (ioutil_TempFile_ok _ w _ _ f rs) by done.
  unfold defer, bind, wrap, io_Copy_hash_file. rewrite Hbody.
  assert (Hleft : forall w4,
            files w4 = alter (fun old => (old ++ body_data r)%list) f
                             (<[f := []]> (files w3)) ->
            files w !! f = None
            /\ files w4 = <[f := body_data r]> (files w)
            /\ files w4 !! canonical_path w id curl
                 = files w !! canonical_path w id curl).
  { intros w4 ->. rewrite Hfiles3, alter_insert_eq. cbn.
    by rewrite lookup_insert_ne. }
  destruct (decide (Z.of_nat (length (body_data r)) ≠ expectSize)) as [Hsz|Hsz].
  - eexists. split; [reflexivity|]. by apply Hleft.
  - destruct Hbad as [Hbad|Hbad]; [done|]. rewrite decide_True by done.
    eexists. split; [reflexivity|]. by apply Hleft.
Qed.

End Properties.

(** * Runs on the sample *)

Section Runs.
#[local] Existing Instance Sample.ext.

(** C1, the claim as stated fails.  The store declares five bytes and
    delivers three: [archivePath] fails with the size-mismatch error, and
    the temporary file, absent before the call, is in the cache directory
    after it, holding the three bytes. *)
Lemma archivePath_leaves_temp_file :
  (CharmStore_archivePath (Sample.store "294" 5) Sample.mysql
     (Sample.world "/cache" ∅)).1
  = Err (Newf "size mismatch; network corruption?" [])
  /\ files (Sample.world "/cache" ∅) !! "/cache/charm-download000000007" = None
  /\ files (CharmStore_archivePath (Sample.store "294" 5) Sample.mysql
              (Sample.world "/cache" ∅)).2
       !! "/cache/charm-download000000007" = Some Sample.abc.
Proof. repeat split; vm_compute; reflexivity. Qed.

(** The hypotheses of [archivePath_mismatch] hold on that run. *)
Lemma archivePath_mismatch_witness :
  exists w',
    CharmStore_archivePath (Sample.store "294" 5) Sample.mysql
      (Sample.world "/cache" ∅)
    = (Err (Newf (if decide (Z.of_nat (length Sample.abc) ≠ 5)
                  then "size mismatch; network corruption?"
                  else "hash mismatch; network corruption?") []), w')
    /\ files (Sample.world "/cache" ∅) !! "/cache/charm-download000000007"
       = None
    /\ files w'
       = <[ "/cache/charm-download000000007" := Sample.abc ]>
           (files (Sample.world "/cache" ∅))
    /\ files w' !! canonical_path (Sample.world "/cache" ∅)
                     Sample.mysql Sample.mysql
       = files (Sample.world "/cache" ∅)
           !! canonical_path (Sample.world "/cache" ∅)
                Sample.mysql Sample.mysql.
Proof.
  apply (archivePath_mismatch (Sample.store "294" 5) Sample.mysql
           (Sample.world "/cache" ∅)
           {| body_data := Sample.abc; body_broken := false |}
           Sample.mysql "294" 5 "/cache/charm-download000000007" []).
  - vm_compute. discriminate.
  - left. vm_compute. reflexivity.
  - reflexivity.
  - intros (content & Hf & _). vm_compute in Hf. discriminate.
  - vm_compute. reflexivity.
  - reflexivity.
  - left. vm_compute. discriminate.
Defined.

(** The same store declaring the right size and a wrong hash. *)
Example archivePath_hash_mismatch :
  (CharmStore_archivePath (Sample.store "999" 3) Sample.mysql
     (Sample.world "/cache" ∅)).1
  = Err (Newf "hash mismatch; network corruption?" [])
  /\ files (CharmStore_archivePath (Sample.store "999" 3) Sample.mysql
              (Sample.world "/cache" ∅)).2
       !! "/cache/charm-download000000007" = Some Sample.abc.
Proof. repeat split; vm_compute; reflexivity. Qed.

(** A download that matches is moved to the canonical path, and no
    temporary file is left. *)
Example archivePath_promotes :
  (CharmStore_archivePath (Sample.store "294" 3) Sample.mysql
     (Sample.world "/cache" ∅)).1
  = Ok "/cache/cs:trusty/mysql-5.charm"
  /\ files (CharmStore_archivePath (Sample.store "294" 3) Sample.mysql
              (Sample.world "/cache" ∅)).2
       !! "/cache/cs:trusty/mysql-5.charm" = Some Sample.abc
  /\ files (CharmStore_archivePath (Sample.store "294" 3) Sample.mysql
              (Sample.world "/cache" ∅)).2
       !! "/cache/charm-download000000007" = None.
Proof. repeat split; vm_compute; reflexivity. Qed.

(** The hypotheses of [archivePath_cache_hit] hold when the cache already
    holds the three bytes under the canonical name. *)
Lemma archivePath_cache_hit_witness :
  exists w',
    CharmStore_archivePath (Sample.store "294" 3) Sample.mysql
      (Sample.world "/cache" {[ "/cache/cs:trusty/mysql-5.charm" := Sample.abc ]})
    = (Ok (canonical_path
             (Sample.world "/cache"
                {[ "/cache/cs:trusty/mysql-5.charm" := Sample.abc ]})
             Sample.mysql Sample.mysql), w')
    /\ files w'
       = files (Sample.world "/cache"
                  {[ "/cache/cs:trusty/mysql-5.charm" := Sample.abc ]})
    /\ dirs w'
       = dirs (Sample.world "/cache"
                 {[ "/cache/cs:trusty/mysql-5.charm" := Sample.abc ]})
    /\ rand w'
       = rand (Sample.world "/cache"
                 {[ "/cache/cs:trusty/mysql-5.charm" := Sample.abc ]})
    /\ trace w'
       = trace (Sample.world "/cache"
                  {[ "/cache/cs:trusty/mysql-5.charm" := Sample.abc ]})
         ++ [EvGetArchive (Reference Sample.mysql);
             EvFileClose
               (canonical_path
                  (Sample.world "/cache"
                     {[ "/cache/cs:trusty/mysql-5.charm" := Sample.abc ]})
                  Sample.mysql Sample.mysql);
             EvBodyClose].
Proof.
  apply (archivePath_cache_hit (Sample.store "294" 3) Sample.mysql
           (Sample.world "/cache"
              {[ "/cache/cs:trusty/mysql-5.charm" := Sample.abc ]})
           {| body_data := Sample.abc; body_broken := false |}
           Sample.mysql "294" 3).
  - vm_compute. discriminate.
  - vm_compute. reflexivity.
  - reflexivity.
  - exists Sample.abc. repeat split; vm_compute; reflexivity.
Defined.

(** What that run returns and does. *)
Example archivePath_cache_hit_run :
  (CharmStore_archivePath (Sample.store "294" 3) Sample.mysql
     (Sample.world "/cache"
        {[ "/cache/cs:trusty/mysql-5.charm" := Sample.abc ]})).1
  = Ok "/cache/cs:trusty/mysql-5.charm"
  /\ trace (CharmStore_archivePath (Sample.store "294" 3) Sample.mysql
              (Sample.world "/cache"
                 {[ "/cache/cs:trusty/mysql-5.charm" := Sample.abc ]})).2
     = [EvGetArchive Sample.mysql;
        EvFileClose "/cache/cs:trusty/mysql-5.charm"; EvBodyClose].
Proof. repeat split; vm_compute; reflexivity. Qed.

(** C3, the claim as stated fails on the charm store.  [mysql] has a
    series and the pinned revision 5; [Resolve] still asks the store, which
    has no such entity, and returns an error. *)
Lemma CharmStore_Resolve_pinned_asks_store :
  Revision Sample.mysql = 5
  /\ Series Sample.mysql = "trusty"
  /\ (CharmStore_Resolve (Sample.store "294" 3) Sample.mysql
        (Sample.world "/cache" ∅)).1
     = Err (WithCausefNotFound "cannot resolve URL %q: %s not found"
              ["cs:trusty/mysql-5"; "charm"])
  /\ trace (CharmStore_Resolve (Sample.store "294" 3) Sample.mysql
              (Sample.world "/cache" ∅)).2
     = [EvMeta Sample.mysql].
Proof. repeat split; vm_compute; reflexivity. Qed.

(** The hypotheses of [Resolve_pinned] hold for [mysql]. *)
Lemma Resolve_pinned_witness :
  Resolve {| remoteURI := "https://git.example/mysql"; reference := "HEAD" |}
    Sample.mysql (Sample.world "/cache" ∅)
  = (Ok (Sample.mysql, []), Sample.world "/cache" ∅)
  /\ exists o,
       Resolve (Sample.store "294" 3) Sample.mysql (Sample.world "/cache" ∅)
       = (o, log (EvMeta Sample.mysql) (Sample.world "/cache" ∅))
       /\ (forall id,
             answer_Meta (client (Sample.store "294" 3)) Sample.mysql = Ok id ->
             o = Ok (id, []))
       /\ (forall r l, o = Ok (r, l) ->
             answer_Meta (client (Sample.store "294" 3)) Sample.mysql = Ok r
             /\ l = []).
Proof.
  apply (Resolve_pinned (Sample.store "294" 3)
           {| remoteURI := "https://git.example/mysql"; reference := "HEAD" |}
           Sample.mysql (Sample.world "/cache" ∅)).
  - vm_compute. discriminate.
  - vm_compute. discriminate.
Defined.

(** [Latest] of three references of which the store knows the first and
    the last: three results, the middle one NotFound. *)
Lemma Latest_aligned_witness :
  exists responses,
    CharmStore_Latest (Sample.store "294" 3)
      [Sample.mysql; Sample.wordpress; Sample.mysql] (Sample.world "/cache" ∅)
    = (Ok responses,
       log (EvGet (Latest_query [Sample.mysql; Sample.wordpress; Sample.mysql]))
           (Sample.world "/cache" ∅))
    /\ length responses = 3%nat
    /\ responses !! 0%nat
       = Some {| cr_Revision := 9; cr_Sha256 := "f00d"; cr_Err := None |}
    /\ responses !! 1%nat
       = Some {| cr_Revision := 0; cr_Sha256 := "";
                 cr_Err := Some (CharmNotFound "cs:trusty/wordpress") |}
    /\ responses !! 2%nat
       = Some {| cr_Revision := 9; cr_Sha256 := "f00d"; cr_Err := None |}.
Proof.
  destruct (proj2 (Latest_aligned (Sample.store "294" 3)
                     [Sample.mysql; Sample.wordpress; Sample.mysql]
                     (Sample.world "/cache" ∅))
              _ eq_refl)
    as (responses & Hrun & Hlen & Hslot).
  exists responses. split; [exact Hrun|]. split; [exact Hlen|].
  pose proof (Hslot 0%nat Sample.mysql eq_refl) as H0.
  pose proof (Hslot 1%nat Sample.wordpress eq_refl) as H1.
  pose proof (Hslot 2%nat Sample.mysql eq_refl) as H2.
  repeat split; [rewrite H0|rewrite H1|rewrite H2]; vm_compute; reflexivity.
Defined.

(** The same run, evaluated. *)
Example Latest_run :
  (CharmStore_Latest (Sample.store "294" 3)
     [Sample.mysql; Sample.wordpress; Sample.mysql]
     (Sample.world "/cache" ∅)).1
  = Ok [ {| cr_Revision := 9; cr_Sha256 := "f00d"; cr_Err := None |};
         {| cr_Revision := 0; cr_Sha256 := "";
            cr_Err := Some (NotFoundError "cs:trusty/wordpress") |};
         {| cr_Revision := 9; cr_Sha256 := "f00d"; cr_Err := None |} ]
  /\ trace (CharmStore_Latest (Sample.store "294" 3)
              [Sample.mysql; Sample.wordpress; Sample.mysql]
              (Sample.world "/cache" ∅)).2
     = [EvGet "/meta/any?ignore-auth=1&include=id-revision&include=hash256&id=cs:trusty/mysql&id=cs:trusty/wordpress&id=cs:trusty/mysql&"]
  /\ (CharmStore_Latest (Sample.store "294" 3) [] (Sample.world "/cache" ∅)).1
     = Ok []
  /\ trace (CharmStore_Latest (Sample.store "294" 3) []
              (Sample.world "/cache" ∅)).2 = [].
Proof. repeat split; vm_compute; reflexivity. Qed.

(** [Get] of a bundle reference and [GetBundle] of a charm reference, on
    either backend. *)
Lemma Get_GetBundle_type_mismatch_witness :
  (Get {| remoteURI := "https://git.example/mysql"; reference := "HEAD" |}
     Sample.wiki_bundle (Sample.world "/cache" ∅)
   = (Err (Newf "expected a charm URL, got bundle URL %q"
             [URL_String Sample.wiki_bundle]), Sample.world "/cache" ∅)
   /\ Get (Sample.store "294" 3) Sample.wiki_bundle (Sample.world "/cache" ∅)
      = (Err (Newf "expected a charm URL, got bundle URL %q"
                [URL_String Sample.wiki_bundle]), Sample.world "/cache" ∅))
  /\ (GetBundle {| remoteURI := "https://git.example/mysql"; reference := "HEAD" |}
        Sample.mysql (Sample.world "/cache" ∅)
      = (Err (Newf "expected a bundle URL, got charm URL %q"
                [URL_String Sample.mysql]), Sample.world "/cache" ∅)
      /\ GetBundle (Sample.store "294" 3) Sample.mysql (Sample.world "/cache" ∅)
         = (Err (Newf "expected a bundle URL, got charm URL %q"
                   [URL_String Sample.mysql]), Sample.world "/cache" ∅)).
Proof.
  split.
  - destruct (proj1 (Get_GetBundle_type_mismatch (Sample.store "294" 3)
                       {| remoteURI := "https://git.example/mysql";
                          reference := "HEAD" |}
                       Sample.wiki_bundle (Sample.world "/cache" ∅)) eq_refl)
      as [Hgit Hstore].
    split; [exact Hgit|]. apply Hstore. vm_compute. discriminate.
  - destruct (proj2 (Get_GetBundle_type_mismatch (Sample.store "294" 3)
                       {| remoteURI := "https://git.example/mysql";
                          reference := "HEAD" |}
                       Sample.mysql (Sample.world "/cache" ∅)))
      as [Hgit Hstore]; [vm_compute; discriminate|].
    split; [exact Hgit|]. apply Hstore. vm_compute. discriminate.
Defined.

(** [Resolve] of an unpinned bundle reference on the git backend. *)
Lemma GitRepo_Resolve_bundle_witness :
  GitRepo_Resolve {| remoteURI := "https://git.example/mysql"; reference := "HEAD" |}
    Sample.wiki_bundle (Sample.world "/cache" ∅)
  = (Ok (WithRevision Sample.wiki_bundle 0, []), Sample.world "/cache" ∅).
Proof.
  apply (GitRepo_Resolve_bundle
           {| remoteURI := "https://git.example/mysql"; reference := "HEAD" |}
           Sample.wiki_bundle (Sample.world "/cache" ∅)); reflexivity.
Defined.

(** [Get] and [GetBundle] of the charm store with [CacheDir] empty. *)
Lemma Get_GetBundle_panic_without_CacheDir_witness :
  CharmStore_Get (Sample.store "294" 3) Sample.mysql (Sample.world "" ∅)
  = (Panic "charm cache directory path is empty", Sample.world "" ∅)
  /\ CharmStore_GetBundle (Sample.store "294" 3) Sample.mysql (Sample.world "" ∅)
     = (Panic "charm cache directory path is empty", Sample.world "" ∅).
Proof.
  apply (Get_GetBundle_panic_without_CacheDir (Sample.store "294" 3)
           Sample.mysql (Sample.world "" ∅)).
  reflexivity.
Defined.

(** [NewGitRepo] on a name without "?", with one and with two. *)
Lemma NewGitRepo_splits_name_witness :
  NewGitRepo (Sample.git_mysql "https://git.example/mysql" (-1))
    (Sample.world "/cache" ∅)
  = (Ok {| remoteURI := "https://git.example/mysql"; reference := "HEAD" |},
     Sample.world "/cache" ∅)
  /\ NewGitRepo (Sample.git_mysql "https://git.example/mysql?v1" (-1))
       (Sample.world "/cache" ∅)
     = (Ok {| remoteURI := "https://git.example/mysql"; reference := "v1" |},
        Sample.world "/cache" ∅)
  /\ NewGitRepo (Sample.git_mysql "https://git.example/mysql?v1?v2" (-1))
       (Sample.world "/cache" ∅)
     = (Ok {| remoteURI := "https://git.example/mysql"; reference := "v1" |},
        Sample.world "/cache" ∅).
Proof.
  split; [|split].
  - apply (proj1 (NewGitRepo_splits_name
                    (Sample.git_mysql "https://git.example/mysql" (-1))
                    (Sample.world "/cache" ∅))).
    reflexivity.
  - apply (proj1 (proj2 (NewGitRepo_splits_name
                    (Sample.git_mysql "https://git.example/mysql?v1" (-1))
                    (Sample.world "/cache" ∅)))
             "https://git.example/mysql" "v1"); reflexivity.
  - apply (proj2 (proj2 (NewGitRepo_splits_name
                    (Sample.git_mysql "https://git.example/mysql?v1?v2" (-1))
                    (Sample.world "/cache" ∅)))
             "https://git.example/mysql" "v1" "v2"); reflexivity.
Defined.

(** C9.  The name asks for the reference [v1].  [NewGitRepo] records it,
    but [Get] clones without naming any reference: the tree checked out in
    the scratch directory is that of HEAD, whose [revision] file holds
    three bytes, and the charm read has revision 3; the tree at [v1] holds
    one byte and would give revision 1. *)
Theorem GitRepo_Get_clones_HEAD_not_reference :
  (NewGitRepo (Sample.git_mysql "https://git.example/mysql?v1" (-1))
     (Sample.world "/cache" ∅)).1
  = Ok {| remoteURI := "https://git.example/mysql"; reference := "v1" |}
  /\ (GitRepo_Get
        {| remoteURI := "https://git.example/mysql"; reference := "v1" |}
        (Sample.git_mysql "https://git.example/mysql?v1" (-1))
        (Sample.world "/cache" ∅)).1
     = Ok (["trusty"], 3)
  /\ trace (GitRepo_Get
              {| remoteURI := "https://git.example/mysql"; reference := "v1" |}
              (Sample.git_mysql "https://git.example/mysql?v1" (-1))
              (Sample.world "/cache" ∅)).2
     = [EvClone "/tmp/juju-clone000000007"
          {| opt_URL := "https://git.example/mysql";
             opt_ReferenceName := "";
             opt_RecurseSubmodules := 10 |}]
  /\ worktrees (GitRepo_Get
                  {| remoteURI := "https://git.example/mysql"; reference := "v1" |}
                  (Sample.git_mysql "https://git.example/mysql?v1" (-1))
                  (Sample.world "/cache" ∅)).2
       !! "/tmp/juju-clone000000007" ≫= (fun tree => tree !! "revision")
     = Sample.tree_HEAD !! "revision"
  /\ Sample.tree_HEAD !! "revision" = Some Sample.abc
  /\ Sample.tree_v1 !! "revision" = Some [x61]%byte
  /\ Sample.read_dir Sample.tree_v1 = Ok (["trusty"], 1).
Proof. repeat split; vm_compute; reflexivity. Qed.

(** [Resolve] of an unpinned charm reference on the git backend succeeds
    with revision 3; the charm read declares the series "trusty", and the
    list returned is empty all the same. *)
Lemma Resolve_series_list_empty_witness :
  (Resolve {| remoteURI := "https://git.example/mysql"; reference := "HEAD" |}
     (Sample.git_mysql "https://git.example/mysql" (-1))
     (Sample.world "/cache" ∅)).1
  = Ok (WithRevision (Sample.git_mysql "https://git.example/mysql" (-1)) 3, [])
  /\ Charm_Meta_Series (["trusty"], 3) = ["trusty"]
  /\ @nil string = [].
Proof.
  assert (Hrun :
    (Resolve {| remoteURI := "https://git.example/mysql"; reference := "HEAD" |}
       (Sample.git_mysql "https://git.example/mysql" (-1))
       (Sample.world "/cache" ∅)).1
    = Ok (WithRevision (Sample.git_mysql "https://git.example/mysql" (-1)) 3, []))
    by (vm_compute; reflexivity).
  split; [exact Hrun|]. split; [reflexivity|].
  exact (Resolve_series_list_empty (Sample.store "294" 3) _ _ _ _ _
           (or_intror Hrun)).
Defined.

End Runs.

(** * Further properties of the two backends *)

Section Further.
Context `{Externals}.

Ltac run :=
  unfold bind, ret, fail, panic, gets, modify, lift, wrap, catch, defer.

Lemma temp_name_in_dir (dir pfx p : string) : temp_name dir pfx p -> in_dir dir p.
Proof. intros [n ->]. by eexists. Qed.

Lemma canonical_path_in_dir (w : World) (id curl : URL) :
  in_dir (CacheDir w) (canonical_path w id curl).
Proof. by eexists. Qed.

(** *** What each step does to the files *)

Lemma os_MkdirAll_any (dir : string) (w : World) (o : outcome unit) (w1 : World) :
  os_MkdirAll dir w = (o, w1) ->
  CacheDir w1 = CacheDir w /\ files w1 = files w /\ rand w1 = rand w
  /\ trace w1 = trace w
  /\ dirs w ⊆ dirs w1
  /\ (o = Ok tt -> dir ∈ dirs w1).
Proof.
  unfold os_MkdirAll. intros Hrun.
  repeat (case_decide || case_bool_decide || case_match);
    simplify_eq/=; split_and!; try done; try set_solver.
Qed.

Lemma verify_any (path h : string) (sz : Z) (w : World)
    (o : outcome unit) (w3 : World) :
  verifyHash384AndSize path h sz w = (o, w3) ->
  CacheDir w3 = CacheDir w /\ files w3 = files w /\ rand w3 = rand w
  /\ dirs w3 = dirs w
  /\ (o = Ok tt <-> cached w path h sz).
Proof.
  unfold verifyHash384AndSize, os_Open, io_Copy_hash. run. intros Hrun.
  destruct (files w !! path) as [content|] eqn:Hf.
  - repeat case_decide; simplify_eq/=; split_and!; try done.
    + split; [done|]. intros (c & Hc & Hsz & _). congruence.
    + split; [done|]. intros (c & Hc & _ & Hh). congruence.
    + split; [|done]. intros _. by exists content.
  - simplify_eq/=. split_and!; try done.
    split; [done|]. intros (c & Hc & _). congruence.
Qed.

Lemma ioutil_TempFile_any (dir pfx : string) (w : World)
    (o : outcome string) (w4 : World) :
  ioutil_TempFile dir pfx w = (o, w4) ->
  CacheDir w4 = CacheDir w /\ dirs w4 = dirs w /\ trace w4 = trace w
  /\ match o with
     | Ok f => files w !! f = None /\ ~ f ∈ dirs w /\ temp_name dir pfx f
               /\ files w4 = <[f := []]> (files w)
     | _ => files w4 = files w
     end.
Proof.
  unfold ioutil_TempFile. intros Hrun.
  case_bool_decide; [|by simplify_eq/=].
  destruct (fresh_name _ _ _ _) as [[name rs]|] eqn:Hfresh; simplify_eq/=;
    [|done].
  destruct (fresh_name_spec _ _ _ _ _ _ Hfresh) as [Htaken [n ->]].
  unfold exists_at in Htaken. apply orb_false_elim in Htaken as [Hd Hf].
  apply bool_decide_eq_false in Hd, Hf.
  split_and!; try done.
  - by apply eq_None_not_Some.
  - by eexists.
Qed.


(** *** The three ways [archivePath] can leave the files *)

Lemma archivePath_cases (s : CharmStore) (curl : URL) (w : World)
    (o : outcome string) (w' : World) :
  CharmStore_archivePath s curl w = (o, w') ->
  CacheDir w' = CacheDir w /\ dirs w ⊆ dirs w'
  /\ ((files w' = files w
       /\ forall p, o = Ok p ->
            exists r id h sz,
              answer_GetArchive (client s) (Reference curl) = Ok (r, id, h, sz)
              /\ p = canonical_path w id curl /\ cached w p h sz)
      \/ (exists r id h sz f,
            answer_GetArchive (client s) (Reference curl) = Ok (r, id, h, sz)
            /\ files w !! f = None /\ temp_name (CacheDir w) "charm-download" f
            /\ files w' = <[f := body_data r]> (files w)
            /\ exists e, o = Err e)
      \/ (exists r id h sz f,
            answer_GetArchive (client s) (Reference curl) = Ok (r, id, h, sz)
            /\ files w !! f = None /\ temp_name (CacheDir w) "charm-download" f
            /\ o = Ok (canonical_path w id curl)
            /\ files w' = <[canonical_path w id curl := body_data r]> (files w)
            /\ Z.of_nat (length (body_data r)) = sz
            /\ sha384_hex (body_data r) = h
            /\ ~ cached w (canonical_path w id curl) h sz)).
Proof.
  unfold CharmStore_archivePath. unfold bind at 1 2 3, gets, wrap at 1 2.
  destruct (os_MkdirAll (CacheDir w) w) as [o1 w1] eqn:Hmk.
  destruct (os_MkdirAll_any _ _ _ _ Hmk) as (Hcd1 & Hf1 & Hr1 & _ & Hd1 & Hin1).
  destruct o1 as [[]|e|msg];
    [|intros [= <- <-]; split_and!; try done; left; by split..].
  unfold client_GetArchive.
  destruct (answer_GetArchive (client s) (Reference curl))
    as [[[[r id] h] sz]|e|msg] eqn:Hget;
    [|intros [= <- <-]; split_and!; try done; left; by split..].
  fold (canonical_path w id curl).
  unfold defer at 1, bind at 1, catch.
  destruct (verifyHash384AndSize _ _ _ _) as [o3 w3] eqn:Hv.
  destruct (verify_any _ _ _ _ _ _ Hv) as (Hcd3 & Hf3 & Hr3 & Hd3 & Hok3).
  cbn in Hcd3, Hf3, Hr3, Hd3.
  assert (Hc3 : o3 = Ok tt <-> cached w (canonical_path w id curl) h sz).
  { rewrite Hok3. unfold cached. cbn. by rewrite Hf1. }
  clear Hok3.
  destruct o3 as [[]|e|msg].
  - intros [= <- <-]. cbn. split_and!; [congruence|by rewrite ?Hd4, ?Hd3|].
    left. split; [congruence|]. intros p [= <-].
    exists r, id, h, sz. split_and!; [done..|]. by apply Hc3.
  - assert (Hmiss : ~ cached w (canonical_path w id curl) h sz).
    { intros Hc. by apply Hc3 in Hc. }
    unfold bind at 1, wrap at 1.
    destruct (ioutil_TempFile _ _ _) as [o4 w4] eqn:Htf.
    destruct (ioutil_TempFile_any _ _ _ _ _ Htf) as (Hcd4 & Hd4 & _ & Hf4).
    destruct o4 as [f|e4|msg4].
    + destruct Hf4 as (Hnew & _ & Hdir & Hf4).
      rewrite Hf3, Hf1 in Hnew, Hf4.
      assert (Hcd : CacheDir w4 = CacheDir w) by congruence.
      assert (Hd : dirs w ⊆ dirs w4) by (by rewrite Hd4, Hd3).
      assert (Hf5 : alter (fun old => (old ++ body_data r)%list) f (files w4)
                    = <[f := body_data r]> (files w))
        by (by rewrite Hf4, alter_insert_eq).
      assert (Hleft : forall e0,
        CacheDir w4 = CacheDir w /\ dirs w ⊆ dirs w4
        /\ ((<[f := body_data r]> (files w) = files w
             /\ forall p, @Err string e0 = Ok p ->
                  exists r0 id0 h0 sz0,
                    Ok (r, id, h, sz) = Ok (r0, id0, h0, sz0)
                    /\ p = canonical_path w id0 curl /\ cached w p h0 sz0)
            \/ (exists r0 id0 h0 sz0 f0,
                  Ok (r, id, h, sz) = Ok (r0, id0, h0, sz0)
                  /\ files w !! f0 = None /\ temp_name (CacheDir w) "charm-download" f0
                  /\ <[f := body_data r]> (files w)
                     = <[f0 := body_data r0]> (files w)
                  /\ exists e1, @Err string e0 = Err e1)
            \/ (exists r0 id0 h0 sz0 f0,
                  Ok (r, id, h, sz) = Ok (r0, id0, h0, sz0)
                  /\ files w !! f0 = None /\ temp_name (CacheDir w) "charm-download" f0
                  /\ @Err string e0 = Ok (canonical_path w id0 curl)
                  /\ <[f := body_data r]> (files w)
                     = <[canonical_path w id0 curl := body_data r0]> (files w)
                  /\ Z.of_nat (length (body_data r0)) = sz0
                  /\ sha384_hex (body_data r0) = h0
                  /\ ~ cached w (canonical_path w id0 curl) h0 sz0))).
      { intros e0. split_and!; [done..|]. right. left.
        exists r, id, h, sz, f. split_and!; eauto. }
      unfold defer, bind, wrap, io_Copy_hash_file.
      destruct (body_broken r).
      { intros [= <- <-]. cbn. rewrite Hf5. by apply Hleft. }
      case_decide as Hsz.
      { intros [= <- <-]. cbn. rewrite Hf5. by apply Hleft. }
      case_decide as Hh.
      { intros [= <- <-]. cbn. rewrite Hf5. by apply Hleft. }
      unfold modify, utils_ReplaceFile, ret. cbn.
      rewrite Hf5, lookup_insert_eq.
      case_bool_decide as Hpd.
      { intros [= <- <-]. cbn. rewrite Hf5. by apply Hleft. }
      intros [= <- <-]. cbn. rewrite Hf5, delete_insert_id by done.
      split_and!; [done..|]. right. right.
      exists r, id, h, sz, f. by split_and!.
    + intros [= <- <-]. cbn. split_and!; [congruence|by rewrite ?Hd4, ?Hd3|].
      left. split; [congruence|done].
    + intros [= <- <-]. cbn. split_and!; [congruence|by rewrite ?Hd4, ?Hd3|].
      left. split; [congruence|done].
  - intros [= <- <-]. cbn. split_and!; [congruence|by rewrite ?Hd4, ?Hd3|].
    left. split; [congruence|done].
Qed.


(** ** What [archivePath] does to the cache, on every path *)

(** X1.  [verifyHash384AndSize] returns nil exactly when the file exists
    with the expected size and the expected hash; it changes no file and
    no directory; a file of the wrong size is reported as a size mismatch
    whatever its hash. *)
Theorem verifyHash384AndSize_spec
    (path expectHash : string) (expectSize : Z) (w : World) :
  ((verifyHash384AndSize path expectHash expectSize w).1 = Ok tt
   <-> cached w path expectHash expectSize)
  /\ files (verifyHash384AndSize path expectHash expectSize w).2 = files w
  /\ dirs (verifyHash384AndSize path expectHash expectSize w).2 = dirs w
  /\ (forall content,
        files w !! path = Some content ->
        Z.of_nat (length content) ≠ expectSize ->
        (verifyHash384AndSize path expectHash expectSize w).1
        = Err (Newf "size mismatch for %q" [path])).
Proof.
  destruct (verifyHash384AndSize path expectHash expectSize w)
    as [o w3] eqn:Hv.
  destruct (verify_any _ _ _ _ _ _ Hv) as (_ & Hf & _ & Hd & Hok).
  split_and!; try done.
  intros content Hc Hsz. revert Hv.
  unfold verifyHash384AndSize, os_Open, io_Copy_hash. run.
  rewrite Hc. rewrite decide_True by done. by intros [= <- _].
Qed.

(** X2.  Whatever the outcome, [archivePath] leaves every file that is not
    an entry of [CacheDir] as it was. *)
Theorem archivePath_writes_only_in_CacheDir
    (s : CharmStore) (curl : URL) (w : World) (p : string) :
  ~ in_dir (CacheDir w) p ->
  files (CharmStore_archivePath s curl w).2 !! p = files w !! p.
Proof.
  intros Hout. destruct (CharmStore_archivePath s curl w) as [o w'] eqn:Hrun.
  destruct (archivePath_cases _ _ _ _ _ Hrun) as (_ & _ & Hcase). cbn.
  destruct Hcase as [[-> _]|[(r & id & h & sz & f & _ & _ & Hf & -> & _)
                            |(r & id & h & sz & f & _ & _ & _ & _ & -> & _)]].
  - done.
  - apply lookup_insert_ne. intros <-. by apply Hout, (temp_name_in_dir _ _ _ Hf).
  - apply lookup_insert_ne. intros <-. apply Hout, canonical_path_in_dir.
Qed.

(** X3.  Whatever the outcome, [archivePath] removes no directory and
    neither removes nor changes a file that existed before the call,
    except that the file at the path it returns may have been replaced. *)
Theorem archivePath_keeps_existing_files
    (s : CharmStore) (curl : URL) (w : World) (p : string)
    (content : list byte) :
  files w !! p = Some content ->
  dirs w ⊆ dirs (CharmStore_archivePath s curl w).2
  /\ (files (CharmStore_archivePath s curl w).2 !! p = Some content
      \/ (CharmStore_archivePath s curl w).1 = Ok p).
Proof.
  intros Hp. destruct (CharmStore_archivePath s curl w) as [o w'] eqn:Hrun.
  destruct (archivePath_cases _ _ _ _ _ Hrun) as (_ & Hd & Hcase). cbn.
  split; [done|].
  destruct Hcase as [[-> _]|[(r & id & h & sz & f & _ & Hnew & _ & -> & _)
                            |(r & id & h & sz & f & _ & _ & _ & -> & -> & _)]].
  - by left.
  - left. rewrite lookup_insert_ne; [done|]. intros <-. congruence.
  - destruct (decide (canonical_path w id curl = p)) as [<-|Hne];
      [by right|left]. by rewrite lookup_insert_ne.
Qed.

Lemma archivePath_returns_verified_file_aux
    (s : CharmStore) (curl : URL) (w : World) (p : string) :
  (CharmStore_archivePath s curl w).1 = Ok p ->
  exists r id expectHash expectSize,
    answer_GetArchive (client s) (Reference curl)
    = Ok (r, id, expectHash, expectSize)
    /\ p = canonical_path w id curl
    /\ cached (CharmStore_archivePath s curl w).2 p expectHash expectSize.
Proof.
  destruct (CharmStore_archivePath s curl w) as [o w'] eqn:Hrun.
  destruct (archivePath_cases _ _ _ _ _ Hrun) as (_ & _ & Hcase). cbn.
  intros ->.
  destruct Hcase as [[Hf Hok]|[(r & id & h & sz & f & _ & _ & _ & _ & e & [=])
                    |(r & id & h & sz & f & Hget & _ & _ & [= ->] & Hf & Hsz & Hh & _)]].
  - destruct (Hok p eq_refl) as (r & id & h & sz & Hget & -> & Hc).
    exists r, id, h, sz. split_and!; [done..|].
    unfold cached. by rewrite Hf.
  - exists r, id, h, sz. split_and!; [done..|].
    exists (body_data r). by rewrite Hf, lookup_insert_eq.
Qed.

(** X4.  A path returned by [archivePath] is the canonical path of the
    entity the store named, and the file at that path after the call has
    exactly the size and the hash the store declared. *)
Theorem archivePath_returns_verified_file
    (s : CharmStore) (curl : URL) (w : World) (p : string) :
  (CharmStore_archivePath s curl w).1 = Ok p ->
  exists r id expectHash expectSize,
    answer_GetArchive (client s) (Reference curl)
    = Ok (r, id, expectHash, expectSize)
    /\ p = canonical_path w id curl
    /\ cached (CharmStore_archivePath s curl w).2 p expectHash expectSize.
Proof. apply archivePath_returns_verified_file_aux. Qed.

(** X5.  When [archivePath] fails, for whatever reason, nothing was
    promoted: every canonical path holds what it held before the call. *)
Theorem archivePath_failure_promotes_nothing
    (s : CharmStore) (curl : URL) (w : World) (e : error) (id : URL) :
  (CharmStore_archivePath s curl w).1 = Err e ->
  files (CharmStore_archivePath s curl w).2 !! canonical_path w id curl
  = files w !! canonical_path w id curl.
Proof.
  destruct (CharmStore_archivePath s curl w) as [o w'] eqn:Hrun.
  destruct (archivePath_cases _ _ _ _ _ Hrun) as (_ & _ & Hcase). cbn.
  intros ->.
  destruct Hcase as [[-> _]|[(r & id' & h & sz & f & _ & _ & [n ->] & -> & _)
                    |(r & id' & h & sz & f & _ & _ & _ & [=] & _)]].
  - done.
  - apply lookup_insert_ne, temp_name_ne_canonical_path.
Qed.


(** ** Hits and downloads *)

Lemma archivePath_hit_run
    (s : CharmStore) (curl : URL) (w : World)
    (r : Body) (id : URL) (expectHash : string) (expectSize : Z) :
  CacheDir w ≠ "" ->
  CacheDir w ∈ dirs w ->
  answer_GetArchive (client s) (Reference curl) =
    Ok (r, id, expectHash, expectSize) ->
  cached w (canonical_path w id curl) expectHash expectSize ->
  CharmStore_archivePath s curl w
  = (Ok (canonical_path w id curl),
     body_Close (file_Close (canonical_path w id curl)
                   (log (EvGetArchive (Reference curl)) w))).
Proof.
  intros Hset Hdir Hget (content & Hf & Hsize & Hsum).
  unfold CharmStore_archivePath, os_MkdirAll, client_GetArchive.
  unfold bind at 1 2 3, gets, wrap at 1 2.
  rewrite decide_False by done.
  rewrite bool_decide_eq_true_2 by done. rewrite Hget.
  unfold defer at 1, bind at 1, catch.
  fold (canonical_path w id curl).
  by rewrite (verify_hit _ _ _ _ content).
Qed.

Lemma archivePath_download_run
    (s : CharmStore) (curl : URL) (w : World)
    (r : Body) (id : URL) (expectHash : string) (expectSize : Z)
    (f : string) (rs : list nat) :
  CacheDir w ≠ "" ->
  CacheDir w ∈ dirs w \/ files w !! CacheDir w = None ->
  answer_GetArchive (client s) (Reference curl) =
    Ok (r, id, expectHash, expectSize) ->
  ~ cached w (canonical_path w id curl) expectHash expectSize ->
  fresh_name (exists_at w) (CacheDir w) "charm-download" (rand w) =
    Some (f, rs) ->
  body_broken r = false ->
  Z.of_nat (length (body_data r)) = expectSize ->
  sha384_hex (body_data r) = expectHash ->
  canonical_path w id curl ∉ dirs w ->
  exists w',
    CharmStore_archivePath s curl w = (Ok (canonical_path w id curl), w')
    /\ CacheDir w' = CacheDir w
    /\ CacheDir w ∈ dirs w'
    /\ files w' = <[canonical_path w id curl := body_data r]> (files w)
    /\ files w !! f = None
    /\ f ≠ canonical_path w id curl.
Proof.
  intros Hset Hdir Hget Hmiss Hfresh Hbody Hsz Hh Hnodir.
  destruct (fresh_name_spec _ _ _ _ _ _ Hfresh) as [Htaken [n Hname]].
  assert (Hnew : files w !! f = None).
  { unfold exists_at in Htaken. apply orb_false_elim in Htaken as [_ Hf].
    apply bool_decide_eq_false in Hf. by apply eq_None_not_Some. }
  assert (Hpath : f ≠ canonical_path w id curl).
  { rewrite Hname. apply temp_name_ne_canonical_path. }
  unfold CharmStore_archivePath.
  unfold bind at 1 2 3, gets, wrap at 1 2.
  destruct (os_MkdirAll_ok _ _ Hset Hdir)
    as (w1 & Hmk & Hin & Hdirs & Hfiles & Hrand).
  destruct (os_MkdirAll_any _ _ _ _ Hmk) as (Hcd1 & _).
  rewrite Hmk.
  unfold client_GetArchive. rewrite Hget.
  fold (canonical_path w id curl).
  unfold defer at 1, bind at 1, catch.
  assert (Hmiss1 : ~ cached (log (EvGetArchive (Reference curl)) w1)
                     (canonical_path w id curl) expectHash expectSize).
  { unfold cached. cbn. by rewrite Hfiles. }
  destruct (verify_miss _ _ _ _ Hmiss1) as (e & w3 & -> & Hw3).
  assert (Hw3' : CacheDir w3 = CacheDir w1 /\ CacheDir w ∈ dirs w3
                 /\ (forall p, p ≠ CacheDir w -> p ∈ dirs w3 <-> p ∈ dirs w)
                 /\ files w3 = files w /\ rand w3 = rand w).
  { by destruct Hw3 as [-> | ->]. }
  clear Hw3. destruct Hw3' as (Hcd3 & Hin3 & Hdirs3 & Hfiles3 & Hrand3).
  unfold bind at 1, wrap at 1.
  rewrite (ioutil_TempFile_ok _ w _ _ f rs) by done.
  unfold defer, bind, wrap, io_Copy_hash_file. rewrite Hbody.
  rewrite decide_False by (by intros ?).
  rewrite decide_False by (by intros ?).
  unfold modify, utils_ReplaceFile, ret. cbn.
  rewrite Hfiles3, alter_insert_eq, lookup_insert_eq.
  rewrite bool_decide_eq_false_2; last first.
  { rewrite Hdirs3; [done|]. apply filepath_Join_ne_dir. }
  eexists. split; [reflexivity|]. cbn.
  rewrite Hfiles3, alter_insert_eq, delete_insert_id by done.
  split_and!; try done. congruence.
Qed.

(** X6.  A download that matches is promoted: when the canonical path
    holds no matching file (none at all, or a stale one) and the body
    arrives whole with the declared size and hash, [archivePath] returns
    the canonical path, which now holds the downloaded bytes; no other
    file changes and the temporary file is gone. *)
Theorem archivePath_download_promotes
    (s : CharmStore) (curl : URL) (w : World)
    (r : Body) (id : URL) (expectHash : string) (expectSize : Z)
    (f : string) (rs : list nat) :
  CacheDir w ≠ "" ->
  CacheDir w ∈ dirs w \/ files w !! CacheDir w = None ->
  answer_GetArchive (client s) (Reference curl) =
    Ok (r, id, expectHash, expectSize) ->
  ~ cached w (canonical_path w id curl) expectHash expectSize ->
  fresh_name (exists_at w) (CacheDir w) "charm-download" (rand w) =
    Some (f, rs) ->
  body_broken r = false ->
  Z.of_nat (length (body_data r)) = expectSize ->
  sha384_hex (body_data r) = expectHash ->
  canonical_path w id curl ∉ dirs w ->
  (CharmStore_archivePath s curl w).1 = Ok (canonical_path w id curl)
  /\ files (CharmStore_archivePath s curl w).2
     = <[canonical_path w id curl := body_data r]> (files w)
  /\ files (CharmStore_archivePath s curl w).2 !! f = None.
Proof.
  intros Hset Hdir Hget Hmiss Hfresh Hbody Hsz Hh Hnodir.
  destruct (archivePath_download_run _ _ _ _ _ _ _ _ _
              Hset Hdir Hget Hmiss Hfresh Hbody Hsz Hh Hnodir)
    as (w' & -> & _ & _ & Hf & Hnew & Hne).
  cbn. split_and!; [done..|]. by rewrite Hf, lookup_insert_ne.
Qed.

(** X7.  After such a download, asking again is a cache hit: the second
    call returns the same path, changes no file, and its trace shows the
    body of the second response closed but never read. *)
Theorem archivePath_second_call_hits
    (s : CharmStore) (curl : URL) (w : World)
    (r : Body) (id : URL) (expectHash : string) (expectSize : Z)
    (f : string) (rs : list nat) :
  CacheDir w ≠ "" ->
  CacheDir w ∈ dirs w \/ files w !! CacheDir w = None ->
  answer_GetArchive (client s) (Reference curl) =
    Ok (r, id, expectHash, expectSize) ->
  ~ cached w (canonical_path w id curl) expectHash expectSize ->
  fresh_name (exists_at w) (CacheDir w) "charm-download" (rand w) =
    Some (f, rs) ->
  body_broken r = false ->
  Z.of_nat (length (body_data r)) = expectSize ->
  sha384_hex (body_data r) = expectHash ->
  canonical_path w id curl ∉ dirs w ->
  (CharmStore_archivePath s curl (CharmStore_archivePath s curl w).2).1
  = Ok (canonical_path w id curl)
  /\ files (CharmStore_archivePath s curl (CharmStore_archivePath s curl w).2).2
     = files (CharmStore_archivePath s curl w).2
  /\ trace (CharmStore_archivePath s curl (CharmStore_archivePath s curl w).2).2
     = trace (CharmStore_archivePath s curl w).2
       ++ [EvGetArchive (Reference curl);
           EvFileClose (canonical_path w id curl);
           EvBodyClose].
Proof.
  intros Hset Hdir Hget Hmiss Hfresh Hbody Hsz Hh Hnodir.
  destruct (archivePath_download_run _ _ _ _ _ _ _ _ _
              Hset Hdir Hget Hmiss Hfresh Hbody Hsz Hh Hnodir)
    as (w' & -> & Hcd & Hin & Hf & _ & _).
  cbn [snd].
  assert (Hpath : canonical_path w' id curl = canonical_path w id curl)
    by (unfold canonical_path; by rewrite Hcd).
  rewrite (archivePath_hit_run s curl w' r id expectHash expectSize).
  - cbn. rewrite Hpath. split_and!; [done..|]. by rewrite <- !app_assoc.
  - by rewrite Hcd.
  - by rewrite Hcd.
  - done.
  - rewrite Hpath. exists (body_data r). by rewrite Hf, lookup_insert_eq.
Qed.


(** ** Get and GetBundle *)

(** X8.  A charm returned by [CharmStore.Get], and a bundle returned by
    [CharmStore.GetBundle], is the parse of a file whose size and hash are
    exactly those the store declared for the entity. *)
Theorem Get_GetBundle_parse_verified_file
    (s : CharmStore) (curl : URL) (w : World) :
  (forall ch,
     (CharmStore_Get s curl w).1 = Ok ch ->
     exists r id expectHash expectSize content,
       answer_GetArchive (client s) (Reference curl)
       = Ok (r, id, expectHash, expectSize)
       /\ Z.of_nat (length content) = expectSize
       /\ sha384_hex content = expectHash
       /\ parse_charm_archive content = Ok ch)
  /\ (forall b,
        (CharmStore_GetBundle s curl w).1 = Ok b ->
        exists r id expectHash expectSize content,
          answer_GetArchive (client s) (Reference curl)
          = Ok (r, id, expectHash, expectSize)
          /\ Z.of_nat (length content) = expectSize
          /\ sha384_hex content = expectHash
          /\ parse_bundle_archive content = Ok b).
Proof.
  split.
  - intros ch. unfold CharmStore_Get. run.
    repeat case_decide; try done.
    destruct (CharmStore_archivePath s curl w) as [o w'] eqn:Hrun.
    pose proof (archivePath_returns_verified_file_aux s curl w) as Hok.
    rewrite Hrun in Hok. cbn in Hok.
    destruct o as [p|e|msg]; try done.
    destruct (Hok p eq_refl) as (r & id & h & sz & Hget & _ & content & Hf & Hsz & Hh).
    unfold charm_ReadCharmArchive. rewrite Hf. cbn. intros Hparse.
    by exists r, id, h, sz, content.
  - intros b. unfold CharmStore_GetBundle. run.
    repeat case_decide; try done.
    destruct (CharmStore_archivePath s curl w) as [o w'] eqn:Hrun.
    pose proof (archivePath_returns_verified_file_aux s curl w) as Hok.
    rewrite Hrun in Hok. cbn in Hok.
    destruct o as [p|e|msg]; try done.
    destruct (Hok p eq_refl) as (r & id & h & sz & Hget & _ & content & Hf & Hsz & Hh).
    unfold charm_ReadBundleArchive. rewrite Hf. cbn. intros Hparse.
    by exists r, id, h, sz, content.
Qed.



(** X10.  When the cache directory cannot be made (a regular file is in
    its place), [archivePath] fails before it asks the store for anything:
    the world is as it was. *)
Theorem archivePath_without_directory_asks_nothing
    (s : CharmStore) (curl : URL) (w : World) (content : list byte) :
  CacheDir w ∉ dirs w ->
  files w !! CacheDir w = Some content ->
  exists e,
    CharmStore_archivePath s curl w
    = (Err (Notef e "cannot create the cache directory" []), w).
Proof.
  intros Hdir Hfile.
  unfold CharmStore_archivePath, os_MkdirAll. run.
  case_decide; [by eexists|].
  rewrite bool_decide_eq_false_2 by done. rewrite Hfile. by eexists.
Qed.

(** ** Resolve and Latest on the charm store *)

(** X11.  When the store refuses [Meta], [CharmStore.Resolve] fails with an
    error of the same cause; for a not-found cause the message names what
    was looked for: a bundle, a charm, or either when the reference has no
    series. *)
Theorem CharmStore_Resolve_error
    (s : CharmStore) (ref : URL) (w : World) (e : error) :
  answer_Meta (client s) ref = Err e ->
  exists e',
    CharmStore_Resolve s ref w = (Err e', log (EvMeta ref) w)
    /\ cause_is_ErrNotFound e' = cause_is_ErrNotFound e
    /\ (cause_is_ErrNotFound e = true ->
        e' = WithCausefNotFound "cannot resolve URL %q: %s not found"
               [URL_String ref;
                if decide (Series ref = "bundle") then "bundle"
                else if decide (Series ref = "") then "charm or bundle"
                else "charm"])
    /\ (cause_is_ErrNotFound e = false ->
        e' = NoteMaskAny e "cannot resolve charm URL %q" [URL_String ref]).
Proof.
  intros Hmeta. unfold CharmStore_Resolve, client_Meta. run. rewrite Hmeta.
  eexists. split; [reflexivity|].
  destruct (cause_is_ErrNotFound e) eqn:Hc; by split_and!.
Qed.

Lemma CharmStore_Latest_run (s : CharmStore) (curls : list URL) (w : World) :
  curls ≠ [] ->
  CharmStore_Latest s curls w
  = (match answer_Get (client s) (Latest_query curls) with
     | Ok results => Ok (map (Latest_slot results) (map Latest_key curls))
     | Err e =>
         Err (NoteMaskAny e "cannot get metadata from the charm store" [])
     | Panic msg => Panic msg
     end,
     log (EvGet (Latest_query curls)) w).
Proof.
  intros Hne. unfold CharmStore_Latest.
  destruct curls as [|curl rest]; [done|].
  rewrite decide_False by (cbn; lia).
  unfold values_Add at 1 2 3.
  rewrite Latest_request_spec by (rewrite length_replicate; lia).
  unfold Latest_query. cbn [take app].
  unfold client_Get. run.
  destruct (answer_Get _ _) as [results|e|msg]; [|done..].
  by rewrite Latest_responses_spec
    by (rewrite length_replicate; cbn; rewrite ?length_map; lia).
Qed.

(** X12.  When the store refuses the metadata request, [Latest] of a
    non-empty list fails as a whole, with an error of the same cause, after
    that one request. *)
Theorem Latest_error
    (s : CharmStore) (curls : list URL) (w : World) (e : error) :
  curls ≠ [] ->
  answer_Get (client s) (Latest_query curls) = Err e ->
  CharmStore_Latest s curls w
  = (Err (NoteMaskAny e "cannot get metadata from the charm store" []),
     log (EvGet (Latest_query curls)) w)
  /\ cause_is_ErrNotFound
       (NoteMaskAny e "cannot get metadata from the charm store" [])
     = cause_is_ErrNotFound e.
Proof.
  intros Hne Hget. rewrite CharmStore_Latest_run by done.
  by rewrite Hget.
Qed.

(** X13.  The revisions of the references given to [Latest] play no part:
    replacing them by any others gives the same request and the same
    result. *)
Theorem Latest_ignores_revisions
    (s : CharmStore) (curls : list URL) (rev : URL -> Z) (w : World) :
  CharmStore_Latest s (map (fun curl => WithRevision curl (rev curl)) curls) w
  = CharmStore_Latest s curls w.
Proof.
  destruct curls as [|curl rest]; [done|].
  rewrite !CharmStore_Latest_run by done.
  assert (Hkeys : forall l : list URL,
            map Latest_key (map (fun curl => WithRevision curl (rev curl)) l)
            = map Latest_key l).
  { intros l. rewrite map_map. by apply map_ext. }
  assert (Hq : Latest_query
                 (map (fun curl => WithRevision curl (rev curl)) (curl :: rest))
               = Latest_query (curl :: rest)).
  { unfold Latest_query. f_equal. f_equal.
    rewrite map_map. by apply map_ext. }
  by rewrite Hq, Hkeys.
Qed.


(** ** The git backend *)

Lemma ioutil_TempDir_any (pfx : string) (w : World)
    (o : outcome string) (w1 : World) :
  ioutil_TempDir pfx w = (o, w1) ->
  CacheDir w1 = CacheDir w /\ files w1 = files w
  /\ worktrees w1 = worktrees w /\ remotes w1 = remotes w
  /\ trace w1 = trace w
  /\ match o with
     | Ok dir => temp_name os_TempDir pfx dir
                 /\ (dir ∉ dirs w) /\ files w !! dir = None
                 /\ dirs w1 = {[dir]} ∪ dirs w
     | _ => dirs w1 = dirs w
     end.
Proof.
  unfold ioutil_TempDir. intros Hrun.
  destruct (fresh_name _ _ _ _) as [[name rs]|] eqn:Hfresh; simplify_eq/=;
    [|done].
  destruct (fresh_name_spec _ _ _ _ _ _ Hfresh) as [Htaken [n ->]].
  unfold exists_at in Htaken. apply orb_false_elim in Htaken as [Hd Hf].
  apply bool_decide_eq_false in Hd, Hf.
  split_and!; try done.
  - by eexists.
  - by apply eq_None_not_Some.
Qed.

Lemma GitRepo_archivePath_cases (g : GitRepo) (checkout : URL) (w : World)
    (o : outcome string) (w' : World) :
  GitRepo_archivePath g checkout w = (o, w') ->
  CacheDir w' = CacheDir w /\ files w' = files w /\ remotes w' = remotes w
  /\ dirs w ⊆ dirs w'
  /\ (forall d, d ∈ dirs w -> worktrees w' !! d = worktrees w !! d)
  /\ match o with
     | Ok dir =>
         temp_name os_TempDir "juju-clone" dir
         /\ (dir ∉ dirs w) /\ files w !! dir = None
         /\ dirs w' = {[dir]} ∪ dirs w
         /\ trace w'
            = (trace w
               ++ [EvClone dir
                     {| opt_URL := remoteURI g; opt_ReferenceName := "";
                        opt_RecurseSubmodules :=
                          DefaultSubmoduleRecursionDepth |}])%list
         /\ exists refs tree,
              remotes w !! remoteURI g = Some refs
              /\ refs !! "HEAD" = Some tree
              /\ worktrees w' !! dir = Some tree
     | _ => True
     end.
Proof.
  unfold GitRepo_archivePath. unfold bind at 1, wrap at 1.
  destruct (ioutil_TempDir "juju-clone" w) as [o1 w1] eqn:Htd.
  destruct (ioutil_TempDir_any _ _ _ _ Htd)
    as (Hcd1 & Hf1 & Hwt1 & Hrm1 & Htr1 & Ho1).
  destruct o1 as [dir|e|msg];
    [|intros [= <- <-]; split_and!; try done; [by rewrite Ho1|by rewrite Hwt1]..].
  destruct Ho1 as (Hname & Hnd & Hnf & Hd1).
  assert (Hsub : dirs w ⊆ dirs w1) by (rewrite Hd1; apply union_subseteq_r).
  unfold bind, wrap, git_PlainClone, ret, clone_reference. cbn.
  rewrite Hrm1.
  destruct (remotes w !! remoteURI g) as [refs|] eqn:Hrem.
  2: { cbn. intros ?; simplify_eq/=. split_and!; try done; try (intros; congruence). }
  rewrite decide_True by done.
  destruct (refs !! "HEAD") as [tree|] eqn:Href.
  2: { cbn. intros ?; simplify_eq/=. split_and!; try done; try (intros; congruence). }
  cbn. intros ?; simplify_eq/=. split_and!; try done.
  - intros d Hdin. rewrite lookup_insert_ne, Hwt1; [done|]. by intros <-.
  - by rewrite Htr1.
  - exists refs, tree. by rewrite lookup_insert_eq.
Qed.

(** X14.  A charm returned by [GitRepo.Get] is read from the tree the
    remote has at HEAD, whatever reference the [GitRepo] was made with. *)
Theorem GitRepo_Get_reads_HEAD
    (g : GitRepo) (checkout : URL) (w : World) (ch : Charm) :
  (GitRepo_Get g checkout w).1 = Ok ch ->
  exists refs tree,
    remotes w !! remoteURI g = Some refs
    /\ refs !! "HEAD" = Some tree
    /\ parse_charm_dir tree = Ok ch.
Proof.
  unfold GitRepo_Get. case_decide; [done|].
  unfold bind, wrap.
  destruct (GitRepo_archivePath g checkout w) as [o w'] eqn:Hrun.
  destruct (GitRepo_archivePath_cases _ _ _ _ _ Hrun)
    as (_ & _ & _ & _ & _ & Ho).
  destruct o as [dir|e|msg]; [|done..].
  destruct Ho as (_ & _ & _ & _ & _ & refs & tree & Hrem & Href & Hwt).
  unfold charm_ReadCharmDir. rewrite Hwt. cbn. intros Hparse.
  by exists refs, tree.
Qed.

(** X15.  Every successful [GitRepo.archivePath] returns a directory under
    the temporary directory that did not exist before the call; the
    directory is left in place, so a later call returns a different one
    and leaves the tree of the earlier one untouched. *)
Theorem GitRepo_archivePath_scratch_directories
    (g1 g2 : GitRepo) (c1 c2 : URL) (w : World) (d1 d2 : string) :
  (GitRepo_archivePath g1 c1 w).1 = Ok d1 ->
  (GitRepo_archivePath g2 c2 (GitRepo_archivePath g1 c1 w).2).1 = Ok d2 ->
  in_dir os_TempDir d1
  /\ (d1 ∉ dirs w) /\ files w !! d1 = None
  /\ d1 ≠ d2
  /\ d1 ∈ dirs (GitRepo_archivePath g2 c2 (GitRepo_archivePath g1 c1 w).2).2
  /\ worktrees (GitRepo_archivePath g2 c2 (GitRepo_archivePath g1 c1 w).2).2
       !! d1
     = worktrees (GitRepo_archivePath g1 c1 w).2 !! d1.
Proof.
  destruct (GitRepo_archivePath g1 c1 w) as [o1 w1] eqn:Hrun1. cbn.
  intros ->.
  destruct (GitRepo_archivePath g2 c2 w1) as [o2 w2] eqn:Hrun2. cbn.
  intros ->.
  destruct (GitRepo_archivePath_cases _ _ _ _ _ Hrun1)
    as (_ & _ & _ & _ & _ & Hn1 & Hnd1 & Hnf1 & Hd1 & _).
  destruct (GitRepo_archivePath_cases _ _ _ _ _ Hrun2)
    as (_ & _ & _ & Hsub2 & Hwt2 & _ & Hnd2 & _).
  assert (Hin1 : d1 ∈ dirs w1)
    by (rewrite Hd1; apply elem_of_union; left; by apply elem_of_singleton).
  split_and!; try done.
  - by eapply temp_name_in_dir.
  - by intros ->.
  - by apply Hsub2.
  - by apply Hwt2.
Qed.

(** X16.  [GitRepo.GetBundle] never succeeds: it hands the scratch
    directory of the clone to the reader of bundle archives, and at that
    path there is no regular file. *)
Theorem GitRepo_GetBundle_never_succeeds
    (g : GitRepo) (checkout : URL) (w : World) (b : Bundle) :
  (GitRepo_GetBundle g checkout w).1 ≠ Ok b.
Proof.
  unfold GitRepo_GetBundle. case_decide; [done|].
  unfold bind, wrap.
  destruct (GitRepo_archivePath g checkout w) as [o w'] eqn:Hrun.
  destruct (GitRepo_archivePath_cases _ _ _ _ _ Hrun)
    as (_ & Hf & _ & _ & _ & Ho).
  destruct o as [dir|e|msg]; [|done..].
  destruct Ho as (_ & _ & Hnf & _).
  unfold charm_ReadBundleArchive. by rewrite Hf, Hnf.
Qed.

(** X17.  A reference returned by [GitRepo.Resolve] has a series and
    differs from the one given in its revision only. *)
Theorem GitRepo_Resolve_changes_only_revision
    (g : GitRepo) (checkout : URL) (w : World) (r : URL) (l : list string) :
  (GitRepo_Resolve g checkout w).1 = Ok (r, l) ->
  Series checkout ≠ ""
  /\ Schema r = Schema checkout /\ User r = User checkout
  /\ Name r = Name checkout /\ Series r = Series checkout.
Proof.
  unfold GitRepo_Resolve. run.
  repeat case_decide; cbn; try done; try (by intros [= <- <-]).
  destruct (GitRepo_Get g checkout w) as [[ch|e|msg] w1]; cbn; try done.
  destruct (SeriesForCharm _ _); cbn; try done. by intros [= <- <-].
Qed.

(** X18.  When [GitRepo.Resolve] succeeds on an unpinned charm reference,
    the revision it pins is the one of the charm [Get] reads from the
    clone, and the series of the reference was accepted against the
    series that charm declares. *)
Theorem GitRepo_Resolve_charm_revision
    (g : GitRepo) (checkout : URL) (w : World) (r : URL) (l : list string) :
  Revision checkout = -1 ->
  Series checkout ≠ "bundle" ->
  (GitRepo_Resolve g checkout w).1 = Ok (r, l) ->
  exists ch series,
    (GitRepo_Get g checkout w).1 = Ok ch
    /\ SeriesForCharm (Series checkout) (Charm_Meta_Series ch) = Ok series
    /\ r = WithRevision checkout (Charm_Revision ch).
Proof.
  intros Hrev Hs. unfold GitRepo_Resolve. run.
  repeat case_decide; cbn; try done.
  destruct (GitRepo_Get g checkout w) as [[ch|e|msg] w1]; cbn; try done.
  destruct (SeriesForCharm _ _) as [series|e|msg] eqn:Hser; cbn; try done.
  intros [= <- <-]. by exists ch, series.
Qed.

(** X19.  [GitRepo.Resolve] refuses a reference without series, pinned or
    not, before it does anything. *)
Theorem GitRepo_Resolve_without_series
    (g : GitRepo) (checkout : URL) (w : World) :
  Series checkout = "" ->
  GitRepo_Resolve g checkout w
  = (Err (Newf "no series specified for %s" [URL_String checkout]), w).
Proof.
  intros Hs. unfold GitRepo_Resolve. run. by rewrite decide_True.
Qed.


(** ** NewGitRepo on any name *)

Lemma strings_Split_cases (s : string) (sep : ascii) :
  (has_byte sep s = false /\ strings_Split s sep = [s])
  \/ (exists u r,
        s = u +:+ String sep r /\ has_byte sep u = false
        /\ strings_Split s sep = u :: strings_Split r sep).
Proof.
  induction s as [|c rest IH]; [by left|]. cbn.
  destruct (decide (c = sep)) as [->|Hc].
  - right. exists "", rest. by rewrite append_nil_l.
  - destruct IH as [[Hn ->]|(u & r & -> & Hu & ->)]; [by left|].
    right. exists (String c u), r. rewrite append_cons. cbn.
    by rewrite decide_False.
Qed.

(** X20.  [NewGitRepo] returns a [GitRepo] for every name and leaves the
    world as it is: indexing the tokens never goes out of range.  Neither
    the remote URI nor the reference holds a "?".  The name is the remote
    URI alone, the reference being "HEAD", or it is the remote URI, a
    "?", the reference, and then nothing or a "?" and more. *)
Theorem NewGitRepo_total (ref : URL) (w : World) :
  exists g,
    NewGitRepo ref w = (Ok g, w)
    /\ has_byte "?" (remoteURI g) = false
    /\ has_byte "?" (reference g) = false
    /\ ((Name ref = remoteURI g /\ reference g = "HEAD")
        \/ (exists rest,
              Name ref = remoteURI g +:+ "?" +:+ reference g +:+ rest
              /\ (rest = "" \/ exists t, rest = "?" +:+ t))).
Proof.
  unfold NewGitRepo.
  destruct (strings_Split_cases (Name ref) "?")
    as [[Hn ->]|(u & r & -> & Hu & ->)].
  - eexists. split; [reflexivity|]. cbn. split_and!; try done. by left.
  - destruct (strings_Split_cases r "?")
      as [[Hr ->]|(v & t & -> & Hv & ->)].
    + eexists. split; [reflexivity|]. cbn. split_and!; try done.
      right. exists "". split; [|by left].
      by rewrite append_nil_r.
    + eexists. split; [reflexivity|]. cbn. split_and!; try done.
      right. exists (String "?" t). split; [done|]. right. by exists t.
Qed.

End Further.

(** * Properties of the unit status *)

Section StatusProperties.
Context `{StatusExternals}.

(** The loop, entered at the index [length pre] with that many slots
    filled and as many left as there are processes, fills the rest. *)
Lemma UnitStatus_range_fills (procs : list process_Info)
    (pre pad : list api_Process) :
  length pad = length procs ->
  UnitStatus_range (length pre) procs (pre ++ pad)
  = Ok (pre ++ (api_Proc2api <$> procs)).
Proof.
  revert pre pad. induction procs as [|p rest IH]; intros pre pad Hlen.
  - by destruct pad.
  - destruct pad as [|z pad]; [done|]. cbn. unfold assign_index.
    rewrite decide_True by (rewrite length_app; cbn; lia).
    rewrite insert_app_r_alt by lia. rewrite Nat.sub_diag. cbn.
    specialize (IH (pre ++ [api_Proc2api p]) pad).
    rewrite length_app, Nat.add_1_r, <- (assoc_L (++)) in IH. cbn in IH.
    rewrite IH by (cbn in Hlen; lia). by rewrite <- (assoc_L (++)).
Qed.

Lemma UnitStatus_range_ok (procs : list process_Info) :
  UnitStatus_range 0 procs (replicate (length procs) api_Process_zero)
  = Ok (api_Proc2api <$> procs).
Proof.
  apply (UnitStatus_range_fills procs []). apply length_replicate.
Qed.

(** X21.  When the processes of the unit can be listed, [UnitStatus]
    returns their API forms, one for each process and in the order of the
    listing: the loop stays inside the slice it fills and leaves no zero
    value behind. *)
Theorem UnitStatus_converts_every_process
    (st : State) (unitTag : UnitTag) (unitProcesses : UnitProcesses)
    (procs : list process_Info) :
  State_UnitProcesses st unitTag = Ok unitProcesses ->
  UnitProcesses_List unitProcesses = Ok procs ->
  UnitStatus st unitTag = Ok (api_Proc2api <$> procs).
Proof.
  intros Hup Hlist. unfold UnitStatus. rewrite Hup, Hlist.
  apply UnitStatus_range_ok.
Qed.

(** X22.  [UnitStatus] fails only when one of the two calls it makes
    fails, and then with the error of that call as it is, not wrapped;
    the same holds for a panic. *)
Theorem UnitStatus_fails_as_its_callee (st : State) (unitTag : UnitTag) :
  (forall err,
     UnitStatus st unitTag = Err err
     <-> State_UnitProcesses st unitTag = Err err
         \/ exists unitProcesses,
              State_UnitProcesses st unitTag = Ok unitProcesses
              /\ UnitProcesses_List unitProcesses = Err err)
  /\ (forall msg,
        UnitStatus st unitTag = Panic msg
        <-> State_UnitProcesses st unitTag = Panic msg
            \/ exists unitProcesses,
                 State_UnitProcesses st unitTag = Ok unitProcesses
                 /\ UnitProcesses_List unitProcesses = Panic msg).
Proof.
  unfold UnitStatus.
  destruct (State_UnitProcesses st unitTag) as [up|e|m].
  - destruct (UnitProcesses_List up) as [procs|e|m] eqn:Hlist.
    + rewrite UnitStatus_range_ok.
      split; intros x; (split; [done|]);
        intros [?|(up' & [= <-] & Hl)]; [done|congruence..].
    + split; intros x; (split; [intros [= <-]; right; by exists up|]);
        intros [?|(up' & [= <-] & Hl)]; congruence.
    + split; intros x; (split; [intros [= <-]; right; by exists up|]);
        intros [?|(up' & [= <-] & Hl)]; congruence.
  - split; intros x; (split; [intros [= <-]; by left|]);
      intros [?|(up' & ? & _)]; congruence.
  - split; intros x; (split; [intros [= <-]; by left|]);
      intros [?|(up' & ? & _)]; congruence.
Qed.

End StatusProperties.

(** * Properties of the client behind a store *)

Section ClientProperties.
Context `{ClientMethods}.

Lemma Header_Add_empty (key value : string) :
  Header_Add key value ∅ = {[ key := [value] ]}.
Proof. unfold Header_Add. by rewrite lookup_empty, insert_empty. Qed.

Lemma Header_Add_singleton (key value : string) (values : list string) :
  Header_Add key value {[ key := values ]}
  = {[ key := (values ++ [value])%list ]}.
Proof.
  unfold Header_Add. by rewrite lookup_singleton_eq, insert_singleton_eq.
Qed.

Lemma WithJujuAttrs_header_from (values : list string)
    (visited : list (string * string)) :
  foldl (fun header kv =>
           Header_Add JujuMetadataHTTPHeader (kv.1 +:+ "=" +:+ kv.2) header)
        {[ JujuMetadataHTTPHeader := values ]} visited
  = {[ JujuMetadataHTTPHeader :=
         (values ++ ((fun kv => kv.1 +:+ "=" +:+ kv.2) <$> visited))%list ]}.
Proof.
  revert values. induction visited as [|kv rest IH]; intros values.
  - cbn. by rewrite app_nil_r.
  - rewrite fmap_cons. cbn [foldl]. rewrite Header_Add_singleton, IH.
    by rewrite <- (assoc_L (++)).
Qed.

Lemma WithJujuAttrs_header_spec (visited : list (string * string)) :
  WithJujuAttrs_header visited
  = match visited with
    | [] => ∅
    | _ => {[ JujuMetadataHTTPHeader :=
                (fun kv => kv.1 +:+ "=" +:+ kv.2) <$> visited ]}
    end.
Proof.
  unfold WithJujuAttrs_header. destruct visited as [|kv rest]; [done|].
  cbn [foldl]. by rewrite Header_Add_empty, WithJujuAttrs_header_from.
Qed.

(** X23.  The header [WithJujuAttrs] builds has, under "Juju-Metadata",
    one value [k=v] for each attribute, in the order the range visits
    them, and no other key; for an empty attribute map it is the empty
    header, and only then. *)
Theorem WithJujuAttrs_header_values
    (attrs : gmap string string) (visited : list (string * string)) :
  range_of attrs visited ->
  default [] (WithJujuAttrs_header visited !! JujuMetadataHTTPHeader)
    ≡ₚ (fun kv => kv.1 +:+ "=" +:+ kv.2) <$> map_to_list attrs
  /\ (forall key, key ≠ JujuMetadataHTTPHeader ->
        WithJujuAttrs_header visited !! key = None)
  /\ (WithJujuAttrs_header visited = ∅ <-> attrs = ∅).
Proof.
  unfold range_of. intros Hperm. rewrite WithJujuAttrs_header_spec.
  destruct visited as [|kv rest].
  - symmetry in Hperm. apply Permutation_nil_r in Hperm.
    apply map_to_list_empty_iff in Hperm as ->.
    rewrite map_to_list_empty. split_and!; try done.
  - split_and!.
    + rewrite lookup_singleton_eq. cbn [default]. by rewrite Hperm.
    + intros key Hkey. by rewrite lookup_singleton_ne.
    + split.
      * intros Hempty. apply (f_equal (lookup JujuMetadataHTTPHeader)) in Hempty.
        by rewrite lookup_singleton_eq, lookup_empty in Hempty.
      * intros ->. rewrite map_to_list_empty in Hperm.
        by apply Permutation_nil_r in Hperm.
Qed.

(** X24.  [WithTestMode] and [WithJujuAttrs] make no client: the store
    each returns points to the client of its receiver.  After the one is
    called on the result of the other, the receiver's own client has had
    both [DisableStats] and [SetHTTPHeader] applied, and every other
    client is as before. *)
Theorem WithTestMode_WithJujuAttrs_share_client
    (s : StoreValue) (visited : list (string * string)) (h : Heap)
    (c : ClientState) :
  h !! client_ptr s = Some c ->
  exists s1 h1 s2 h2,
    WithTestMode s h = (Ok s1, h1)
    /\ WithJujuAttrs s1 visited h1 = (Ok s2, h2)
    /\ client_ptr s1 = client_ptr s /\ client_ptr s2 = client_ptr s
    /\ h1 !! client_ptr s = Some (DisableStats c)
    /\ h2 !! client_ptr s
       = Some (SetHTTPHeader (WithJujuAttrs_header visited) (DisableStats c))
    /\ forall p, p ≠ client_ptr s -> h1 !! p = h !! p /\ h2 !! p = h !! p.
Proof.
  intros Hc. unfold WithTestMode, WithJujuAttrs, on_client. cbn.
  rewrite Hc.
  exists {| client_ptr := client_ptr s |},
         (<[client_ptr s := DisableStats c]> h).
  cbn. rewrite lookup_insert_eq.
  do 2 eexists. split_and!; try reflexivity.
  - by rewrite lookup_insert_eq.
  - intros p Hp. by rewrite !lookup_insert_ne.
Qed.

End ClientProperties.

(** * Further runs on the sample *)

Section FurtherRuns.
#[local] Existing Instance Sample.ext.

(** A file outside the cache directory, across a download. *)
Lemma archivePath_writes_only_in_CacheDir_witness :
  files (CharmStore_archivePath (Sample.store "294" 3) Sample.mysql
           (Sample.world "/cache" {[ "/etc/motd" := Sample.abc ]})).2
    !! "/etc/motd"
  = files (Sample.world "/cache" {[ "/etc/motd" := Sample.abc ]})
      !! "/etc/motd".
Proof.
  apply (archivePath_writes_only_in_CacheDir (Sample.store "294" 3)
           Sample.mysql
           (Sample.world "/cache" {[ "/etc/motd" := Sample.abc ]})
           "/etc/motd").
  intros [name Hname]. vm_compute in Hname. discriminate.
Defined.

(** A stale file at the canonical path is the one file a download may
    replace; here the file looked at is another one. *)
Lemma archivePath_keeps_existing_files_witness :
  dirs (Sample.world "/cache" {[ "/cache/notes" := Sample.abc ]})
    ⊆ dirs (CharmStore_archivePath (Sample.store "294" 3) Sample.mysql
              (Sample.world "/cache" {[ "/cache/notes" := Sample.abc ]})).2
  /\ (files (CharmStore_archivePath (Sample.store "294" 3) Sample.mysql
               (Sample.world "/cache" {[ "/cache/notes" := Sample.abc ]})).2
        !! "/cache/notes" = Some Sample.abc
      \/ (CharmStore_archivePath (Sample.store "294" 3) Sample.mysql
            (Sample.world "/cache" {[ "/cache/notes" := Sample.abc ]})).1
         = Ok "/cache/notes").
Proof.
  apply (archivePath_keeps_existing_files (Sample.store "294" 3)
           Sample.mysql
           (Sample.world "/cache" {[ "/cache/notes" := Sample.abc ]})
           "/cache/notes" Sample.abc).
  vm_compute. reflexivity.
Defined.

(** The path returned after a download. *)
Lemma archivePath_returns_verified_file_witness :
  exists r id expectHash expectSize,
    answer_GetArchive (client (Sample.store "294" 3))
      (Reference Sample.mysql)
    = Ok (r, id, expectHash, expectSize)
    /\ "/cache/cs:trusty/mysql-5.charm"
       = canonical_path (Sample.world "/cache" ∅) id Sample.mysql
    /\ cached (CharmStore_archivePath (Sample.store "294" 3) Sample.mysql
                 (Sample.world "/cache" ∅)).2
         "/cache/cs:trusty/mysql-5.charm" expectHash expectSize.
Proof.
  apply (archivePath_returns_verified_file (Sample.store "294" 3)
           Sample.mysql (Sample.world "/cache" ∅)
           "/cache/cs:trusty/mysql-5.charm").
  vm_compute. reflexivity.
Defined.

(** A download of the wrong size. *)
Lemma archivePath_failure_promotes_nothing_witness :
  files (CharmStore_archivePath (Sample.store "294" 5) Sample.mysql
           (Sample.world "/cache" ∅)).2
    !! canonical_path (Sample.world "/cache" ∅) Sample.mysql Sample.mysql
  = files (Sample.world "/cache" ∅)
      !! canonical_path (Sample.world "/cache" ∅) Sample.mysql Sample.mysql.
Proof.
  apply (archivePath_failure_promotes_nothing (Sample.store "294" 5)
           Sample.mysql (Sample.world "/cache" ∅)
           (Newf "size mismatch; network corruption?" []) Sample.mysql).
  vm_compute. reflexivity.
Defined.

(** A download that matches, into an empty cache. *)
Lemma archivePath_download_promotes_witness :
  (CharmStore_archivePath (Sample.store "294" 3) Sample.mysql
     (Sample.world "/cache" ∅)).1
  = Ok (canonical_path (Sample.world "/cache" ∅) Sample.mysql Sample.mysql)
  /\ files (CharmStore_archivePath (Sample.store "294" 3) Sample.mysql
              (Sample.world "/cache" ∅)).2
     = <[canonical_path (Sample.world "/cache" ∅) Sample.mysql Sample.mysql
         := body_data {| body_data := Sample.abc; body_broken := false |}]>
         (files (Sample.world "/cache" ∅))
  /\ files (CharmStore_archivePath (Sample.store "294" 3) Sample.mysql
              (Sample.world "/cache" ∅)).2
       !! "/cache/charm-download000000007" = None.
Proof.
  apply (archivePath_download_promotes (Sample.store "294" 3) Sample.mysql
           (Sample.world "/cache" ∅)
           {| body_data := Sample.abc; body_broken := false |}
           Sample.mysql "294" 3 "/cache/charm-download000000007" []).
  - vm_compute. discriminate.
  - left. vm_compute. reflexivity.
  - reflexivity.
  - intros (content & Hf & _). vm_compute in Hf. discriminate.
  - vm_compute. reflexivity.
  - reflexivity.
  - vm_compute. reflexivity.
  - vm_compute. reflexivity.
  - vm_compute. discriminate.
Defined.

(** The same download, asked for twice. *)
Lemma archivePath_second_call_hits_witness :
  (CharmStore_archivePath (Sample.store "294" 3) Sample.mysql
     (CharmStore_archivePath (Sample.store "294" 3) Sample.mysql
        (Sample.world "/cache" ∅)).2).1
  = Ok (canonical_path (Sample.world "/cache" ∅) Sample.mysql Sample.mysql)
  /\ files (CharmStore_archivePath (Sample.store "294" 3) Sample.mysql
              (CharmStore_archivePath (Sample.store "294" 3) Sample.mysql
                 (Sample.world "/cache" ∅)).2).2
     = files (CharmStore_archivePath (Sample.store "294" 3) Sample.mysql
                (Sample.world "/cache" ∅)).2
  /\ trace (CharmStore_archivePath (Sample.store "294" 3) Sample.mysql
              (CharmStore_archivePath (Sample.store "294" 3) Sample.mysql
                 (Sample.world "/cache" ∅)).2).2
     = trace (CharmStore_archivePath (Sample.store "294" 3) Sample.mysql
                (Sample.world "/cache" ∅)).2
       ++ [EvGetArchive (Reference Sample.mysql);
           EvFileClose
             (canonical_path (Sample.world "/cache" ∅)
                Sample.mysql Sample.mysql);
           EvBodyClose].
Proof.
  apply (archivePath_second_call_hits (Sample.store "294" 3) Sample.mysql
           (Sample.world "/cache" ∅)
           {| body_data := Sample.abc; body_broken := false |}
           Sample.mysql "294" 3 "/cache/charm-download000000007" []).
  - vm_compute. discriminate.
  - left. vm_compute. reflexivity.
  - reflexivity.
  - intros (content & Hf & _). vm_compute in Hf. discriminate.
  - vm_compute. reflexivity.
  - reflexivity.
  - vm_compute. reflexivity.
  - vm_compute. reflexivity.
  - vm_compute. discriminate.
Defined.

End FurtherRuns.

Section FurtherRuns2.
#[local] Existing Instance Sample.ext.


(** A regular file where the cache directory should be. *)
Lemma archivePath_without_directory_asks_nothing_witness :
  exists e,
    CharmStore_archivePath (Sample.store "294" 3) Sample.mysql
      (Sample.world "/cache/x" {[ "/cache/x" := Sample.abc ]})
    = (Err (Notef e "cannot create the cache directory" []),
       Sample.world "/cache/x" {[ "/cache/x" := Sample.abc ]}).
Proof.
  apply (archivePath_without_directory_asks_nothing (Sample.store "294" 3)
           Sample.mysql
           (Sample.world "/cache/x" {[ "/cache/x" := Sample.abc ]})
           Sample.abc).
  - vm_compute. discriminate.
  - vm_compute. reflexivity.
Defined.

(** The sample store has no entity for [Meta]. *)
Lemma CharmStore_Resolve_error_witness :
  exists e',
    CharmStore_Resolve (Sample.store "294" 3) Sample.wordpress
      (Sample.world "/cache" ∅)
    = (Err e', log (EvMeta Sample.wordpress) (Sample.world "/cache" ∅))
    /\ cause_is_ErrNotFound e'
       = cause_is_ErrNotFound (ExtErr true "entity not found")
    /\ (cause_is_ErrNotFound (ExtErr true "entity not found") = true ->
        e' = WithCausefNotFound "cannot resolve URL %q: %s not found"
               [URL_String Sample.wordpress;
                if decide (Series Sample.wordpress = "bundle") then "bundle"
                else if decide (Series Sample.wordpress = "")
                     then "charm or bundle"
                else "charm"])
    /\ (cause_is_ErrNotFound (ExtErr true "entity not found") = false ->
        e' = NoteMaskAny (ExtErr true "entity not found")
               "cannot resolve charm URL %q" [URL_String Sample.wordpress]).
Proof.
  apply (CharmStore_Resolve_error (Sample.store "294" 3) Sample.wordpress
           (Sample.world "/cache" ∅) (ExtErr true "entity not found")).
  reflexivity.
Defined.

(** The metadata endpoint refuses the request for two charms. *)
Lemma Latest_error_witness :
  CharmStore_Latest Fixtures.refusing [Sample.mysql; Sample.wordpress]
    (Sample.world "/cache" ∅)
  = (Err (NoteMaskAny (ExtErr false "connection refused")
            "cannot get metadata from the charm store" []),
     log (EvGet (Latest_query [Sample.mysql; Sample.wordpress]))
       (Sample.world "/cache" ∅))
  /\ cause_is_ErrNotFound
       (NoteMaskAny (ExtErr false "connection refused")
          "cannot get metadata from the charm store" [])
     = cause_is_ErrNotFound (ExtErr false "connection refused").
Proof.
  apply (Latest_error Fixtures.refusing [Sample.mysql; Sample.wordpress]
           (Sample.world "/cache" ∅) (ExtErr false "connection refused")).
  - discriminate.
  - reflexivity.
Defined.

(** A [GitRepo] made for the tag [v1] reads the charm at HEAD. *)
Lemma GitRepo_Get_reads_HEAD_witness :
  exists refs tree,
    remotes (Sample.world "/cache" ∅)
      !! remoteURI {| remoteURI := "https://git.example/mysql";
                      reference := "v1" |}
    = Some refs
    /\ refs !! "HEAD" = Some tree
    /\ @parse_charm_dir Sample.ext tree = Ok (["trusty"], 3).
Proof.
  apply (@GitRepo_Get_reads_HEAD Sample.ext
           {| remoteURI := "https://git.example/mysql"; reference := "v1" |}
           (Sample.git_mysql "https://git.example/mysql?v1" (-1))
           (Sample.world "/cache" ∅) (["trusty"], 3)).
  vm_compute. reflexivity.
Defined.

(** Two clones in a row. *)
Lemma GitRepo_archivePath_scratch_directories_witness :
  in_dir os_TempDir "/tmp/juju-clone000000007"
  /\ ("/tmp/juju-clone000000007"
        ∉ dirs (set_rand [7; 8]%nat (Sample.world "/cache" ∅)))
  /\ files (set_rand [7; 8]%nat (Sample.world "/cache" ∅))
       !! "/tmp/juju-clone000000007" = None
  /\ "/tmp/juju-clone000000007" ≠ "/tmp/juju-clone000000008"
  /\ "/tmp/juju-clone000000007"
       ∈ dirs (GitRepo_archivePath
                 {| remoteURI := "https://git.example/mysql";
                    reference := "v1" |}
                 (Sample.git_mysql "https://git.example/mysql?v1" (-1))
                 (GitRepo_archivePath
                    {| remoteURI := "https://git.example/mysql";
                       reference := "HEAD" |}
                    (Sample.git_mysql "https://git.example/mysql" (-1))
                    (set_rand [7; 8]%nat (Sample.world "/cache" ∅))).2).2
  /\ worktrees (GitRepo_archivePath
                  {| remoteURI := "https://git.example/mysql";
                     reference := "v1" |}
                  (Sample.git_mysql "https://git.example/mysql?v1" (-1))
                  (GitRepo_archivePath
                     {| remoteURI := "https://git.example/mysql";
                        reference := "HEAD" |}
                     (Sample.git_mysql "https://git.example/mysql" (-1))
                     (set_rand [7; 8]%nat (Sample.world "/cache" ∅))).2).2
       !! "/tmp/juju-clone000000007"
     = worktrees (GitRepo_archivePath
                    {| remoteURI := "https://git.example/mysql";
                       reference := "HEAD" |}
                    (Sample.git_mysql "https://git.example/mysql" (-1))
                    (set_rand [7; 8]%nat (Sample.world "/cache" ∅))).2
         !! "/tmp/juju-clone000000007".
Proof.
  apply (GitRepo_archivePath_scratch_directories
           {| remoteURI := "https://git.example/mysql"; reference := "HEAD" |}
           {| remoteURI := "https://git.example/mysql"; reference := "v1" |}
           (Sample.git_mysql "https://git.example/mysql" (-1))
           (Sample.git_mysql "https://git.example/mysql?v1" (-1))
           (set_rand [7; 8]%nat (Sample.world "/cache" ∅))
           "/tmp/juju-clone000000007" "/tmp/juju-clone000000008").
  - vm_compute. reflexivity.
  - vm_compute. reflexivity.
Defined.

(** An unpinned charm reference on the git backend. *)
Lemma GitRepo_Resolve_changes_only_revision_witness :
  Series (Sample.git_mysql "https://git.example/mysql" (-1)) ≠ ""
  /\ Schema (WithRevision (Sample.git_mysql "https://git.example/mysql" (-1)) 3)
     = Schema (Sample.git_mysql "https://git.example/mysql" (-1))
  /\ User (WithRevision (Sample.git_mysql "https://git.example/mysql" (-1)) 3)
     = User (Sample.git_mysql "https://git.example/mysql" (-1))
  /\ Name (WithRevision (Sample.git_mysql "https://git.example/mysql" (-1)) 3)
     = Name (Sample.git_mysql "https://git.example/mysql" (-1))
  /\ Series (WithRevision (Sample.git_mysql "https://git.example/mysql" (-1)) 3)
     = Series (Sample.git_mysql "https://git.example/mysql" (-1)).
Proof.
  apply (GitRepo_Resolve_changes_only_revision
           {| remoteURI := "https://git.example/mysql"; reference := "HEAD" |}
           (Sample.git_mysql "https://git.example/mysql" (-1))
           (Sample.world "/cache" ∅)
           (WithRevision (Sample.git_mysql "https://git.example/mysql" (-1)) 3)
           []).
  vm_compute. reflexivity.
Defined.

Lemma GitRepo_Resolve_charm_revision_witness :
  exists ch series,
    (GitRepo_Get
       {| remoteURI := "https://git.example/mysql"; reference := "HEAD" |}
       (Sample.git_mysql "https://git.example/mysql" (-1))
       (Sample.world "/cache" ∅)).1 = Ok ch
    /\ SeriesForCharm
         (Series (Sample.git_mysql "https://git.example/mysql" (-1)))
         (Charm_Meta_Series ch) = Ok series
    /\ WithRevision (Sample.git_mysql "https://git.example/mysql" (-1)) 3
       = WithRevision (Sample.git_mysql "https://git.example/mysql" (-1))
           (Charm_Revision ch).
Proof.
  apply (GitRepo_Resolve_charm_revision
           {| remoteURI := "https://git.example/mysql"; reference := "HEAD" |}
           (Sample.git_mysql "https://git.example/mysql" (-1))
           (Sample.world "/cache" ∅)
           (WithRevision (Sample.git_mysql "https://git.example/mysql" (-1)) 3)
           []).
  - reflexivity.
  - vm_compute. discriminate.
  - vm_compute. reflexivity.
Defined.

(** A pinned reference without series. *)
Lemma GitRepo_Resolve_without_series_witness :
  GitRepo_Resolve
    {| remoteURI := "https://git.example/mysql"; reference := "HEAD" |}
    {| Schema := "git"; User := ""; Name := "https://git.example/mysql";
       Revision := 4; Series := "" |}
    (Sample.world "/cache" ∅)
  = (Err (Newf "no series specified for %s"
            [URL_String
               {| Schema := "git"; User := "";
                  Name := "https://git.example/mysql";
                  Revision := 4; Series := "" |}]),
     Sample.world "/cache" ∅).
Proof.
  apply (GitRepo_Resolve_without_series
           {| remoteURI := "https://git.example/mysql"; reference := "HEAD" |}
           {| Schema := "git"; User := ""; Name := "https://git.example/mysql";
              Revision := 4; Series := "" |}
           (Sample.world "/cache" ∅)).
  reflexivity.
Defined.

End FurtherRuns2.

Section StatusRuns.
#[local] Existing Instance Fixtures.status.

(** The three processes of unit 0. *)
Lemma UnitStatus_converts_every_process_witness :
  @UnitStatus Fixtures.status tt 0%nat
  = Ok (@api_Proc2api Fixtures.status <$> [3; 1; 2]%nat).
Proof.
  apply (@UnitStatus_converts_every_process Fixtures.status
           tt 0%nat 0%nat [3; 1; 2]%nat);
    reflexivity.
Defined.

End StatusRuns.

Section ClientRuns.
#[local] Existing Instance Fixtures.client_methods.

(** Two attributes, visited in the order [model], [cloud]. *)
Lemma WithJujuAttrs_header_values_witness :
  default []
    (WithJujuAttrs_header [("model", "m1"); ("cloud", "lxd")]
       !! JujuMetadataHTTPHeader)
    ≡ₚ (fun kv => kv.1 +:+ "=" +:+ kv.2)
         <$> map_to_list ({[ "model" := "m1"; "cloud" := "lxd" ]}
                            : gmap string string)
  /\ (forall key, key ≠ JujuMetadataHTTPHeader ->
        WithJujuAttrs_header [("model", "m1"); ("cloud", "lxd")] !! key = None)
  /\ (WithJujuAttrs_header [("model", "m1"); ("cloud", "lxd")] = ∅
      <-> ({[ "model" := "m1"; "cloud" := "lxd" ]} : gmap string string) = ∅).
Proof.
  apply (WithJujuAttrs_header_values
           {[ "model" := "m1"; "cloud" := "lxd" ]}
           [("model", "m1"); ("cloud", "lxd")]).
  unfold range_of. vm_compute.
  first [reflexivity | apply perm_swap].
Defined.

(** A store whose client is at address 1, beside a client at address 2. *)
Lemma WithTestMode_WithJujuAttrs_share_client_witness :
  exists s1 h1 s2 h2,
    @WithTestMode Fixtures.client_methods {| client_ptr := 1 |}
      Fixtures.two_clients
    = (Ok s1, h1)
    /\ @WithJujuAttrs Fixtures.client_methods s1 [("model", "m1")] h1
       = (Ok s2, h2)
    /\ client_ptr s1 = client_ptr {| client_ptr := 1 |}
    /\ client_ptr s2 = client_ptr {| client_ptr := 1 |}
    /\ h1 !! client_ptr {| client_ptr := 1 |}
       = Some (@DisableStats Fixtures.client_methods Fixtures.plain_client)
    /\ h2 !! client_ptr {| client_ptr := 1 |}
       = Some (@SetHTTPHeader Fixtures.client_methods
                 (WithJujuAttrs_header [("model", "m1")])
                 (@DisableStats Fixtures.client_methods
                    Fixtures.plain_client))
    /\ forall p, p ≠ client_ptr {| client_ptr := 1 |} ->
         h1 !! p = Fixtures.two_clients !! p
         /\ h2 !! p = Fixtures.two_clients !! p.
Proof.
  apply (@WithTestMode_WithJujuAttrs_share_client Fixtures.client_methods
           {| client_ptr := 1 |} [("model", "m1")]
           Fixtures.two_clients Fixtures.plain_client).
  vm_compute. reflexivity.
Defined.

End ClientRuns.
